(** * LoggedIn: authentication-log parsing and detection passes

    A shallow embedding of the log-analysis code of the LoggedIn repository:

    - [App]: the in-memory parser, store and analyser of
      [Program/App/app.py] ([LogParser], [LogStorage], [LogAnalyser]);
    - [Logs]: the field-anchored parser of [Program/Logs/logparser.py],
      the timestamp normaliser of [Logs/logstorage.py] and the store-backed
      analyser of [Program/Logs/loganalyser.py].

    Python library primitives the code calls ([str.split], [str.lower],
    [in], [sorted], [datetime.strptime], [datetime - datetime], ...) are
    modelled in [Py] and [Datetime].  Text is modelled as [string] over
    8-bit characters; the models of the character classes are those of
    Python restricted to code points below 128. *)

From stdpp Require Import gmap strings list fin_maps sorting.
From Stdlib Require Import ZArith Ascii.

Local Open Scope string_scope.
Local Open Scope list_scope.
Local Open Scope Z_scope.

(** ** Python primitives *)

Module Py.

(** [str.isspace] on a single character: TAB..CR, FS..US and SPACE. *)
Definition is_space (c : ascii) : bool :=
  let n := nat_of_ascii c in
  ((9 <=? n) && (n <=? 13) || (28 <=? n) && (n <=? 32))%nat.

(** The class [\d] / [[0-9]]. *)
Definition is_digit (c : ascii) : bool :=
  let n := nat_of_ascii c in ((48 <=? n) && (n <=? 57))%nat.

(** Value of a decimal digit; [0] for any other character. *)
Definition digit_val (c : ascii) : Z :=
  if is_digit c then Z.of_nat (nat_of_ascii c) - 48 else 0.

Definition in_range (lo hi : ascii) (c : ascii) : bool :=
  ((nat_of_ascii lo <=? nat_of_ascii c) && (nat_of_ascii c <=? nat_of_ascii hi))%nat.

(** [str.lower] on a single character. *)
Definition lower_char (c : ascii) : ascii :=
  if in_range "A" "Z" c then ascii_of_nat (nat_of_ascii c + 32) else c.

(** [s.lower()] *)
Fixpoint lower (s : string) : string :=
  match s with
  | EmptyString => EmptyString
  | String c s' => String (lower_char c) (lower s')
  end.

(** [s.startswith(p)] *)
Fixpoint startswith (p s : string) : bool :=
  match p, s with
  | EmptyString, _ => true
  | String a p', String b s' => if Ascii.eqb a b then startswith p' s' else false
  | String _ _, EmptyString => false
  end.

(** [p in s]: [p] occurs in [s] as a contiguous substring. *)
Fixpoint contains (p s : string) : bool :=
  startswith p s ||
  match s with
  | EmptyString => false
  | String _ s' => contains p s'
  end.

(** [s.endswith(p)] *)
Definition endswith (p s : string) : bool :=
  (String.length p <=? String.length s)%nat &&
  String.eqb (String.substring (String.length s - String.length p) (String.length p) s) p.

(** [s[:-1]] *)
Definition drop_last (s : string) : string :=
  String.substring 0 (String.length s - 1) s.

(** [s.lstrip()], [s.rstrip()] and [s.strip()] *)
Fixpoint lstrip (s : string) : string :=
  match s with
  | String c s' => if is_space c then lstrip s' else s
  | EmptyString => EmptyString
  end.

Fixpoint rstrip (s : string) : string :=
  match s with
  | String c s' =>
      let r := rstrip s' in
      if String.eqb r "" && is_space c then "" else String c r
  | EmptyString => EmptyString
  end.

Definition strip (s : string) : string := rstrip (lstrip s).

(** Every character of [s] satisfies [p]. *)
Fixpoint all_chars (p : ascii -> bool) (s : string) : bool :=
  match s with
  | EmptyString => true
  | String c s' => p c && all_chars p s'
  end.

(** [s.split()]: the maximal runs of non-whitespace characters.  [cur] is
    the run being read. *)
Fixpoint split_from (cur : string) (s : string) : list string :=
  match s with
  | EmptyString => if String.eqb cur "" then [] else [cur]
  | String c s' =>
      if is_space c
      then (if String.eqb cur "" then split_from "" s' else cur :: split_from "" s')
      else split_from (cur +:+ String c "") s'
  end.

Definition split (s : string) : list string := split_from "" s.

(** [s.split(sep, 1)] when [sep] occurs in [s]: the text before the first
    [sep] and the text after it; [None] when [sep] does not occur. *)
Fixpoint split_once (sep : ascii) (s : string) : option (string * string) :=
  match s with
  | EmptyString => None
  | String c s' =>
      if Ascii.eqb c sep then Some ("", s')
      else match split_once sep s' with
           | Some (k, v) => Some (String c k, v)
           | None => None
           end
  end.

(** [sep.join(l)] *)
Fixpoint join (sep : string) (l : list string) : string :=
  match l with
  | [] => ""
  | [x] => x
  | x :: l' => x +:+ sep +:+ join sep l'
  end.

(** The longest prefix of [s] all of whose characters satisfy [p], and the
    rest: what a greedy [p+] consumes. *)
Fixpoint span (p : ascii -> bool) (s : string) : string * string :=
  match s with
  | EmptyString => ("", "")
  | String c s' =>
      if p c then let '(a, b) := span p s' in (String c a, b) else ("", s)
  end.

(** Consume the literal [lit] at the start of [s]. *)
Fixpoint literal (lit s : string) : option string :=
  match lit, s with
  | EmptyString, _ => Some s
  | String a lit', String b s' => if Ascii.eqb a b then literal lit' s' else None
  | String _ _, EmptyString => None
  end.

(** Value of a string of decimal digits, most significant first. *)
Fixpoint digits_val (acc : Z) (s : string) : Z :=
  match s with
  | EmptyString => acc
  | String c s' => digits_val (10 * acc + digit_val c) s'
  end.

(** [str(n)] for a natural number, and zero-padded to a width. *)
Fixpoint nat_digits (fuel : nat) (n : Z) (acc : string) : string :=
  match fuel with
  | O => acc
  | S fuel' =>
      let acc' := String (ascii_of_nat (Z.to_nat (48 + n mod 10))) acc in
      if n / 10 =? 0 then acc' else nat_digits fuel' (n / 10) acc'
  end.

Definition str_of_nat (n : Z) : string :=
  nat_digits (S (Z.to_nat (Z.log2 n))) n "".

Fixpoint zeros (n : nat) : string :=
  match n with
  | O => ""
  | S n' => String "0" (zeros n')
  end.

Definition zero_pad (width : nat) (s : string) : string :=
  zeros (width - String.length s) +:+ s.

(** [l[i]] with Python's indexing: a negative [i] counts from the end, and
    an index outside [-len, len) raises IndexError ([None]). *)
Definition index {A} (l : list A) (i : Z) : option A :=
  let n := Z.of_nat (length l) in
  if (0 <=? i) && (i <? n) then l !! Z.to_nat i
  else if (- n <=? i) && (i <? 0) then l !! Z.to_nat (n + i)
  else None.

(** [range(n)] as a list of integers (empty when [n <= 0]). *)
Definition range (n : Z) : list Z :=
  (fun i => Z.of_nat i) <$> seq 0 (Z.to_nat n).

(** [sorted(l)] for a total preorder [leb]: a stable insertion sort. *)
Section Sorted.
Context {A : Type} (leb : A -> A -> bool).

Fixpoint insert_sorted (x : A) (l : list A) : list A :=
  match l with
  | [] => [x]
  | y :: l' => if leb y x then y :: insert_sorted x l' else x :: l
  end.

Definition sorted (l : list A) : list A :=
  foldl (fun acc x => insert_sorted x acc) [] l.
End Sorted.

(** Python dictionaries iterate in insertion order; a dictionary whose
    iteration order the code observes is an association list with distinct
    keys, new keys appended at the end. *)
Section Dict.
Context {K V : Type} `{EqDecision K}.

(** [d[k] = f(d[k])] where a missing key reads as [dflt]
    ([Counter], [defaultdict]). *)
Fixpoint dict_update (dflt : V) (f : V -> V) (k : K) (d : list (K * V)) : list (K * V) :=
  match d with
  | [] => [(k, f dflt)]
  | (k', v) :: d' =>
      if decide (k' = k) then (k', f v) :: d'
      else (k', v) :: dict_update dflt f k d'
  end.
End Dict.

End Py.

(** ** Python's naive [datetime] *)

Module Datetime.

Record datetime := mk_datetime {
  year : Z; month : Z; day : Z;
  hour : Z; minute : Z; second : Z; microsecond : Z
}.

#[export] Instance datetime_eq_dec : EqDecision datetime.
Proof. solve_decision. Defined.

Definition is_leap (y : Z) : bool :=
  (y mod 4 =? 0) && (negb (y mod 100 =? 0) || (y mod 400 =? 0)).

Definition days_in_month_table : list Z :=
  [31; 28; 31; 30; 31; 30; 31; 31; 30; 31; 30; 31].

Definition days_in_month (y m : Z) : Z :=
  if (m =? 2) && is_leap y then 29
  else default 0 (days_in_month_table !! Z.to_nat (m - 1)).

Definition days_before_year (y : Z) : Z :=
  let y := y - 1 in y * 365 + y / 4 - y / 100 + y / 400.

Definition days_before_month (y m : Z) : Z :=
  foldr Z.add 0 (take (Z.to_nat (m - 1)) days_in_month_table)
  + (if (2 <? m) && is_leap y then 1 else 0).

(** [d.toordinal()]: day number, 0001-01-01 being day 1. *)
Definition toordinal (d : datetime) : Z :=
  days_before_year (year d) + days_before_month (year d) (month d) + day d.

(** The range checks of the [datetime] constructor; it raises ValueError
    when they fail. *)
Definition check_fields (y m d H M S us : Z) : bool :=
  (1 <=? y) && (y <=? 9999) && (1 <=? m) && (m <=? 12) &&
  (1 <=? d) && (d <=? days_in_month y m) &&
  (0 <=? H) && (H <=? 23) && (0 <=? M) && (M <=? 59) &&
  (0 <=? S) && (S <=? 59) && (0 <=? us) && (us <=? 999999).

Definition make (y m d H M S us : Z) : option datetime :=
  if check_fields y m d H M S us then Some (mk_datetime y m d H M S us) else None.

Definition valid (d : datetime) : bool :=
  check_fields (year d) (month d) (day d) (hour d) (minute d) (second d) (microsecond d).

(** Comparison of naive datetimes: lexicographic on the fields. *)
Definition fields (d : datetime) : list Z :=
  [year d; month d; day d; hour d; minute d; second d; microsecond d].

Fixpoint lex_leb (a b : list Z) : bool :=
  match a, b with
  | [], _ => true
  | _ :: _, [] => false
  | x :: a', y :: b' => (x <? y) || ((x =? y) && lex_leb a' b')
  end.

Definition leb (a b : datetime) : bool := lex_leb (fields a) (fields b).

(** [a - b] as a number of microseconds ([timedelta] holds days, seconds
    and microseconds; this is its exact value). *)
Definition seconds_of_day (d : datetime) : Z :=
  second d + minute d * 60 + hour d * 3600.

Definition sub (a b : datetime) : Z :=
  ((toordinal a - toordinal b) * 86400 + (seconds_of_day a - seconds_of_day b)) * 1000000
  + (microsecond a - microsecond b).

(** [timedelta(minutes=n)] in microseconds; OverflowError ([None]) when
    the number of days leaves [-999999999, 999999999]. *)
Definition timedelta_minutes (n : Z) : option Z :=
  let days := n * 60 / 86400 in
  if (-999999999 <=? days) && (days <=? 999999999) then Some (n * 60 * 1000000) else None.

(** [d.isoformat()] *)
Definition pad (w : nat) (n : Z) : string := Py.zero_pad w (Py.str_of_nat n).

Definition isoformat (d : datetime) : string :=
  pad 4 (year d) +:+ "-" +:+ pad 2 (month d) +:+ "-" +:+ pad 2 (day d) +:+ "T" +:+
  pad 2 (hour d) +:+ ":" +:+ pad 2 (minute d) +:+ ":" +:+ pad 2 (second d) +:+
  (if microsecond d =? 0 then "" else "." +:+ pad 6 (microsecond d)).

(** [d.strftime('%Y%m%dT%H%M%SZ')], for years from 1000 on (how the C
    library pads an earlier year depends on the platform). *)
Definition strftime (d : datetime) : string :=
  pad 4 (year d) +:+ pad 2 (month d) +:+ pad 2 (day d) +:+ "T" +:+
  pad 2 (hour d) +:+ pad 2 (minute d) +:+ pad 2 (second d) +:+ "Z".

(** *** [datetime.strptime(s, '%Y%m%dT%H%M%SZ')]

    [strptime] turns the format into a regular expression, one group of
    alternatives per directive, matches it at the start of the text
    ignoring case, rejects text left over after the match, and builds the
    datetime.  Each [re_*] below lists the ways its directive can match at
    the start of [s], in the order the alternatives are tried: the value
    read and the text left. *)

Definition re_two (p : ascii -> ascii -> bool) (s : string) : list (Z * string) :=
  match s with
  | String a (String b r) =>
      if p a b then [(10 * Py.digit_val a + Py.digit_val b, r)] else []
  | _ => []
  end.

Definition re_one (p : ascii -> bool) (s : string) : list (Z * string) :=
  match s with
  | String a r => if p a then [(Py.digit_val a, r)] else []
  | _ => []
  end.

Definition is_char (c : ascii) (a : ascii) : bool := Ascii.eqb a c.

(** [%Y]: [\d\d\d\d] *)
Definition re_Y (s : string) : list (Z * string) :=
  match s with
  | String a (String b (String c (String d r))) =>
      if Py.is_digit a && Py.is_digit b && Py.is_digit c && Py.is_digit d
      then [(Py.digits_val 0 (String a (String b (String c (String d "")))), r)]
      else []
  | _ => []
  end.

(** [%m]: [1[0-2]|0[1-9]|[1-9]] *)
Definition re_m (s : string) : list (Z * string) :=
  re_two (fun a b => is_char "1" a && Py.in_range "0" "2" b) s ++
  re_two (fun a b => is_char "0" a && Py.in_range "1" "9" b) s ++
  re_one (Py.in_range "1" "9") s.

(** [%d]: [3[0-1]|[1-2]\d|0[1-9]|[1-9]| [1-9]] *)
Definition re_d (s : string) : list (Z * string) :=
  re_two (fun a b => is_char "3" a && Py.in_range "0" "1" b) s ++
  re_two (fun a b => Py.in_range "1" "2" a && Py.is_digit b) s ++
  re_two (fun a b => is_char "0" a && Py.in_range "1" "9" b) s ++
  re_one (Py.in_range "1" "9") s ++
  re_two (fun a b => is_char " " a && Py.in_range "1" "9" b) s.

(** [%H]: [2[0-3]|[0-1]\d|\d] *)
Definition re_H (s : string) : list (Z * string) :=
  re_two (fun a b => is_char "2" a && Py.in_range "0" "3" b) s ++
  re_two (fun a b => Py.in_range "0" "1" a && Py.is_digit b) s ++
  re_one Py.is_digit s.

(** [%M]: [[0-5]\d|\d] *)
Definition re_M (s : string) : list (Z * string) :=
  re_two (fun a b => Py.in_range "0" "5" a && Py.is_digit b) s ++
  re_one Py.is_digit s.

(** [%S]: [6[0-1]|[0-5]\d|\d] *)
Definition re_S (s : string) : list (Z * string) :=
  re_two (fun a b => is_char "6" a && Py.in_range "0" "1" b) s ++
  re_two (fun a b => Py.in_range "0" "5" a && Py.is_digit b) s ++
  re_one Py.is_digit s.

(** A literal letter of the format, matched ignoring case. *)
Definition re_letter (c : ascii) (s : string) : list string :=
  match s with
  | String a r => if Ascii.eqb (Py.lower_char a) (Py.lower_char c) then [r] else []
  | _ => []
  end.

(** All matches of the whole expression at the start of [s], in
    backtracking order; the first one is the match [re] reports. *)
Definition strptime_matches (s : string) : list (Z * Z * Z * Z * Z * Z * string) :=
  '(year, s) ← re_Y s;
  '(month, s) ← re_m s;
  '(day, s) ← re_d s;
  s ← re_letter "T" s;
  '(hour, s) ← re_H s;
  '(minute, s) ← re_M s;
  '(second, s) ← re_S s;
  s ← re_letter "Z" s;
  [(year, month, day, hour, minute, second, s)].

(** [None] stands for ValueError: no match, unconverted text after the
    match, or field values that are not a date and a time. *)
Definition strptime (s : string) : option datetime :=
  match head (strptime_matches s) with
  | Some (year, month, day, hour, minute, second, rest) =>
      if String.eqb rest "" then make year month day hour minute second 0 else None
  | None => None
  end.

End Datetime.

(** ** The in-memory application: [Program/App/app.py] *)

Module App.
Import Datetime.

(** A parsed log entry is a Python dict from field names to text. *)
Abbreviation log := (gmap string string).

(** *** [LogParser] *)

(** [LogParser.parse_line]: every whitespace-separated part that contains
    ['='] is split at its first ['='] and stored; a line with no such part
    gives [None]. *)
Definition parse_line (line : string) : option log :=
  let parts := Py.split line in
  let parsed_data :=
    foldl (fun (parsed_data : log) part =>
             match Py.split_once "=" part with
             | Some (key, value) => <[key := value]> parsed_data
             | None => parsed_data
             end) ∅ parts in
  if decide (parsed_data = ∅) then None else Some parsed_data.

(** *** [LogStorage]: the list [self.logs] *)

Definition store_log (logs : list log) (log_entry : log) : list log :=
  logs ++ [log_entry].

(** [process_log_file], on the lines of the file: each line is stripped,
    and a non-empty line that parses is stored. *)
Definition process_lines (lines : list string) (logs : list log) : list log :=
  foldl (fun logs line =>
           let line := Py.strip line in
           if String.eqb line "" then logs
           else match parse_line line with
                | Some parsed => store_log logs parsed
                | None => logs
                end) logs lines.

(** *** The sample generator *)

(** The extra fields [generate_realistic_log] appends for an event type;
    [choice] is the value [random.choice] picked for the logon type or the
    failure reason. *)
Definition additional_fields (event_type choice : string) : string :=
  if String.eqb event_type "4624" then "LogonType=" +:+ choice +:+ " AuthPackage=Kerberos"
  else if String.eqb event_type "4625" then "FailureReason=" +:+ choice +:+ " LogonType=3"
  else if String.eqb event_type "4672"
       then "PrivilegeList=SeBackupPrivilege,SeRestorePrivilege"
  else "".

(** [generate_realistic_log(timestamp, event_type, computer, user)], for a
    given (or already chosen) computer and user. *)
Definition generate_realistic_log (timestamp : datetime)
    (event_type computer user choice : string) : string :=
  let time_str := strftime timestamp in
  let additional := additional_fields event_type choice in
  Py.strip ("EventID=" +:+ event_type +:+ " TimeCreated=" +:+ time_str +:+
            " Computer=" +:+ computer +:+ " User=" +:+ user +:+ " " +:+ additional).

(** *** [LogAnalyser] *)

Inductive event_type := Success | Failure.

#[export] Instance event_type_eq_dec : EqDecision event_type.
Proof. solve_decision. Defined.

(** An entry of the login timeline. *)
Record event := mk_event {
  timestamp : datetime;
  outcome : event_type;
  user : string;
  computer : string
}.

#[export] Instance event_eq_dec : EqDecision event.
Proof. solve_decision. Defined.

(** [log.get('EventID') == '4625'] *)
Definition is_failed_login (l : log) : bool :=
  bool_decide (l !! "EventID" = Some "4625").

(** [log.get('EventID') in ['4624', '4625']] *)
Definition is_login (l : log) : bool :=
  bool_decide (l !! "EventID" = Some "4624") || bool_decide (l !! "EventID" = Some "4625").

(** [log.get('User', 'unknown')] and [log.get('Computer', 'unknown')] *)
Definition user_of (l : log) : string := default "unknown" (l !! "User").
Definition computer_of (l : log) : string := default "unknown" (l !! "Computer").

(** [count_failed_logins]: a [Counter] keyed by user, filled in one pass
    over the logs and returned as the list of its items with a positive
    count. *)
Definition count_failed_logins (logs : list log) : list (string * nat) :=
  let failed_logins :=
    foldl (fun failed_logins l =>
             if is_failed_login l
             then Py.dict_update 0%nat S (user_of l) failed_logins
             else failed_logins) [] logs in
  filter (fun uc => (0 < uc.2)%nat) failed_logins.

(** One iteration of the loop of [get_login_timeline]. *)
Definition timeline_step (timeline : list event) (l : log) : list event :=
  if is_login l then
    let time_str := default "" (l !! "TimeCreated") in
    if negb (String.eqb time_str "") then
      match strptime time_str with
      | Some dt =>
          timeline ++ [mk_event dt
                         (if bool_decide (l !! "EventID" = Some "4624") then Success else Failure)
                         (user_of l) (computer_of l)]
      | None => timeline  (* except ValueError: pass *)
      end
    else timeline
  else timeline.

Definition get_login_timeline (logs : list log) : list event :=
  foldl timeline_step [] logs.

(** The inner loop of [detect_brute_force]: for [i] in the range, compare
    [sorted_times[i + threshold - 1] - sorted_times[i]] with the window and
    stop at the first hit.  [time_diff] is that difference in minutes and
    the window is a whole number of minutes, so the test is
    [difference <= window * 60 s], here in microseconds.  [None] is an
    IndexError. *)
Fixpoint window_scan (sorted_times : list datetime) (threshold window : Z)
    (range : list Z) : option bool :=
  match range with
  | [] => Some false
  | i :: range' =>
      last ← Py.index sorted_times (i + threshold - 1);
      first ← Py.index sorted_times i;
      if sub last first <=? window * 60 * 1000000 then Some true
      else window_scan sorted_times threshold window range'
  end.

(** [failed_attempts]: the failure timestamps of each user, users in
    first-seen order. *)
Definition failed_attempts (timeline : list event) : list (string * list datetime) :=
  foldl (fun failed_attempts ev =>
           if decide (outcome ev = Failure)
           then Py.dict_update [] (fun ts => ts ++ [timestamp ev]) (user ev) failed_attempts
           else failed_attempts) [] timeline.

(** One iteration of the outer loop of [detect_brute_force]. *)
Definition brute_force_step (threshold window : Z)
    (brute_force : list (string * nat)) (entry : string * list datetime)
    : option (list (string * nat)) :=
  let '(user, timestamps) := entry in
  if threshold <=? Z.of_nat (length timestamps) then
    let sorted_times := Py.sorted leb timestamps in
    hit ← window_scan sorted_times threshold window
             (Py.range (Z.of_nat (length sorted_times) - threshold + 1));
    Some (if hit : bool
          then Py.dict_update 0%nat (fun _ => length timestamps) user brute_force
          else brute_force)
  else Some brute_force.

(** [detect_brute_force(threshold, time_window_minutes)]: the dict from
    flagged user to number of failures, or [None] when an IndexError
    escapes. *)
Definition detect_brute_force (threshold time_window_minutes : Z) (logs : list log)
    : option (list (string * nat)) :=
  let timeline := get_login_timeline logs in
  foldl (fun acc entry =>
           brute_force ← acc; brute_force_step threshold time_window_minutes brute_force entry)
        (Some []) (failed_attempts timeline).

Definition known_suspicious_patterns : list string :=
  ["hacker"; "admin"; "root"; "test"; "guest"].

(** The test of the inner loop of [detect_suspicious_users] succeeds for
    some pattern. *)
Definition matches_pattern (user : string) : bool :=
  existsb (fun pattern => Py.contains pattern user && negb (String.eqb user "backup_admin"))
          known_suspicious_patterns.

(** [detect_suspicious_users]: [suspicious] is a Python set, to which
    [log.get('User')] is added; the returned list enumerates it in the
    set's own order. *)
Definition suspicious_set (logs : list log) : gset (option string) :=
  foldl (fun (suspicious : gset (option string)) (l : log) =>
           let user := Py.lower (default "" (l !! "User")) in
           if matches_pattern user then {[ l !! "User" ]} ∪ suspicious else suspicious)
        ∅ logs.

Definition detect_suspicious_users (logs : list log) : list (option string) :=
  elements (suspicious_set logs).

(** [detect_unusual_activity] *)
Definition hour_counts (timeline : list event) : gmap Z nat :=
  foldl (fun (hc : gmap Z nat) ev =>
           <[hour (timestamp ev) := S (default 0%nat (hc !! hour (timestamp ev)))]> hc)
        ∅ timeline.

Definition user_computers (timeline : list event) : list (string * gset string) :=
  foldl (fun uc ev =>
           Py.dict_update (∅ : gset string) (fun cs => {[computer ev]} ∪ cs) (user ev) uc)
        [] timeline.

Definition unusual_hours (timeline : list event) : list Z :=
  filter (fun h => (0 < default 0 (hour_counts timeline !! h))%nat) (Py.range 5).

Definition hours_finding (hours : list Z) : string :=
  "Unusual login hours detected: " +:+ Py.join ", " (Py.str_of_nat <$> hours) +:+ ":00".

Definition computers_finding (user : string) (computers : gset string) : string :=
  "User " +:+ user +:+ " logged in from multiple computers: "
  +:+ Py.join ", " (elements computers).

Definition detect_unusual_activity (logs : list log) : list string :=
  let timeline := get_login_timeline logs in
  let unusual_hours := unusual_hours timeline in
  let unusual_activity :=
    if decide (unusual_hours = []) then [] else [hours_finding unusual_hours] in
  foldl (fun unusual_activity '(user, computers) =>
           if decide (2 < size computers)%nat
           then unusual_activity ++ [computers_finding user computers]
           else unusual_activity)
        unusual_activity (user_computers timeline).

(** [get_event_statistics]: three [Counter]s, returned as dicts. *)
Record statistics := mk_statistics {
  event_counts : list (option string * nat);
  computer_activity : list (string * nat);
  user_activity : list (string * nat)
}.

Definition get_event_statistics (logs : list log) : statistics :=
  foldl (fun st l =>
           mk_statistics
             (Py.dict_update 0%nat S (l !! "EventID") (event_counts st))
             (Py.dict_update 0%nat S (computer_of l) (computer_activity st))
             (Py.dict_update 0%nat S (user_of l) (user_activity st)))
        (mk_statistics [] [] []) logs.

End App.

(** ** The store-backed pipeline: [Program/Logs] and [Logs/logstorage.py] *)

Module Logs.
Import Datetime.

(** *** [Program/Logs/logparser.py] *)

(** The value stored under ['timestamp']: a datetime, or the text of the
    token when it could not be converted. *)
Inductive timestamp_value :=
  | Parsed (dt : datetime)
  | Unparsed (token : string).

(** The dict [parse_line] returns: the four named groups, two of them
    converted. *)
Record log_data := mk_log_data {
  event_id : Z;
  timestamp : timestamp_value;
  computer : string;
  user : string
}.

(** A greedy [p+]: at least one character. *)
Definition plus (p : ascii -> bool) (s : string) : option (string * string) :=
  let '(a, r) := Py.span p s in
  if String.eqb a "" then None else Some (a, r).

Definition not_space (c : ascii) : bool := negb (Py.is_space c).

(** [windows_event_pattern.match(line)]: the groups [event_id],
    [timestamp], [computer], [user].  Each [\d+], [\s+] and [\S+] is
    followed by an item that cannot start with a character of its class,
    so only the longest run can lead to a match. *)
Definition windows_event_pattern (line : string)
    : option (string * string * string * string) :=
  s ← Py.literal "EventID=" line;
  '(event_id, s) ← plus Py.is_digit s;
  '(_, s) ← plus Py.is_space s;
  s ← Py.literal "TimeCreated=" s;
  '(timestamp, s) ← plus not_space s;
  '(_, s) ← plus Py.is_space s;
  s ← Py.literal "Computer=" s;
  '(computer, s) ← plus not_space s;
  '(_, s) ← plus Py.is_space s;
  s ← Py.literal "User=" s;
  '(user, _) ← plus not_space s;
  Some (event_id, timestamp, computer, user).

(** [LogParser._parse_windows_timestamp] *)
Definition _parse_windows_timestamp (timestamp_str : string) : timestamp_value :=
  match strptime timestamp_str with
  | Some dt => Parsed dt
  | None => Unparsed timestamp_str  (* except ValueError: return timestamp_str *)
  end.

(** [LogParser.parse_line] *)
Definition parse_line (line : string) : option log_data :=
  match windows_event_pattern line with
  | Some (event_id, timestamp, computer, user) =>
      Some (mk_log_data (Py.digits_val 0 event_id)
                        (_parse_windows_timestamp timestamp) computer user)
  | None => None
  end.

(** *** [Logs/logstorage.py] *)

(** [LogStorage._parse_timestamp]; [now] is the value of
    [datetime.now()] when it is called. *)
Definition _parse_timestamp (now : datetime) (time_str : option string) : string :=
  match time_str with
  | None => isoformat now
  | Some time_str =>
      if String.eqb time_str "" then isoformat now
      else match strptime time_str with
           | Some dt => isoformat dt
           | None => isoformat now  (* except ValueError *)
           end
  end.

(** The entry [store_log] inserts and appends to [log_history], reduced to
    the columns the analyser reads. *)
Record log_entry := mk_log_entry {
  entry_id : nat;
  entry_event_id : option string;
  entry_timestamp : string;
  entry_computer : option string;
  entry_user : option string
}.

(** [LogStorage.store_log]: the table is a list of rows, a new row gets
    the next id. *)
Definition store_log (now : datetime) (table : list log_entry) (log_data : gmap string string)
    : list log_entry * log_entry :=
  let timestamp := _parse_timestamp now (log_data !! "TimeCreated") in
  let entry := mk_log_entry (S (length table)) (log_data !! "EventID") timestamp
                            (log_data !! "Computer") (log_data !! "User") in
  (table ++ [entry], entry).

(** *** [Program/Logs/loganalyser.py] *)

Inductive exn := ValueError | OverflowError | UnboundLocalError.

Inductive result (A : Type) :=
  | Ok (a : A)
  | Raise (e : exn).
Arguments Ok {A} a.
Arguments Raise {A} e.

(** [int(s)] for text: surrounding whitespace, an optional sign, and
    decimal digits in groups separated by single underscores. *)
Fixpoint int_digits (after_digit : bool) (acc : Z) (s : string) : option Z :=
  match s with
  | EmptyString => if after_digit then Some acc else None
  | String c s' =>
      if Py.is_digit c then int_digits true (10 * acc + Py.digit_val c) s'
      else if Ascii.eqb c "_" && after_digit then
             match s' with
             | EmptyString => None
             | String _ _ => int_digits false acc s'
             end
      else None
  end.

Definition int (s : string) : option Z :=
  match Py.strip s with
  | String "-" s' => Z.opp <$> int_digits false 0 s'
  | String "+" s' => int_digits false 0 s'
  | s' => int_digits false 0 s'
  end.

(** A value of the [timestamp] column as the driver returns it: text, or
    a datetime when the connection converts the column. *)
Inductive column :=
  | Text (s : string)
  | Timestamp (dt : datetime).

Section StoreBacked.
(** [datetime.fromisoformat]: which texts it accepts depends on the
    Python version; [None] is ValueError. *)
Variable fromisoformat : string -> option datetime.

(** The first statement of [detect_brute_force]: [window_td] is bound
    only when [window] ends in ['m']. *)
Definition window_td (window : string) : result (option Z) :=
  if Py.endswith "m" window then
    match int (Py.drop_last window) with
    | None => Raise ValueError
    | Some minutes =>
        match timedelta_minutes minutes with
        | None => Raise OverflowError
        | Some td => Ok (Some td)
        end
    end
  else Ok None.

(** The conversion at the head of the loop body: [None] is [continue]. *)
Definition row_timestamp (timestamp : column) : option datetime :=
  match timestamp with
  | Text s => fromisoformat s
  | Timestamp dt => Some dt
  end.

(** The loop over the rows; reading an unbound [window_td] raises. *)
Fixpoint attempts_loop (window_td : option Z) (now : datetime)
    (rows : list (option string * column))
    (brute_force_attempts : list (option string * list datetime))
    : result (list (option string * list datetime)) :=
  match rows with
  | [] => Ok brute_force_attempts
  | (user, timestamp) :: rows' =>
      match row_timestamp timestamp with
      | None => attempts_loop window_td now rows' brute_force_attempts
      | Some timestamp =>
          match window_td with
          | None => Raise UnboundLocalError
          | Some td =>
              attempts_loop window_td now rows'
                (if sub now timestamp <=? td
                 then Py.dict_update [] (fun ts => ts ++ [timestamp]) user brute_force_attempts
                 else brute_force_attempts)
          end
      end
  end.

(** [LogAnalyser.detect_brute_force(window, threshold)] on the rows the
    query returns (the failed logins, ordered by timestamp) and the
    value [now] of [datetime.now()]. *)
Definition detect_brute_force (window : string) (threshold : Z)
    (rows : list (option string * column)) (now : datetime)
    : result (list (option string * nat)) :=
  match window_td window with
  | Raise e => Raise e
  | Ok td =>
      match attempts_loop td now rows [] with
      | Raise e => Raise e
      | Ok brute_force_attempts =>
          Ok ((fun ua => (ua.1, length ua.2)) <$>
              filter (fun ua => threshold <= Z.of_nat (length ua.2)) brute_force_attempts)
      end
  end.
End StoreBacked.

End Logs.

(** * Properties *)

(** Close a decidable goal without variables by evaluating its decision. *)
Ltac by_evaluation := apply (bool_decide_unpack _); vm_compute; exact I.

(** ** Facts about dictionaries as association lists *)

Module PyFacts.
Import Py.

(** The distinct elements of a list in order of first occurrence: the key
    order of a dict filled by one pass over the list. *)
Definition first_seen `{EqDecision K} (ks : list K) : list K :=
  foldl (fun seen k => if decide (k ∈ seen) then seen else seen ++ [k]) [] ks.

Section Grouping.
Context {K V X : Type} `{EqDecision K}.
Implicit Types (d : list (K * V)) (k : K) (v dflt : V) (ks : list K).

Lemma first_seen_snoc ks k :
  first_seen (ks ++ [k]) =
  if decide (k ∈ first_seen ks) then first_seen ks else first_seen ks ++ [k].
Proof. unfold first_seen. by rewrite foldl_snoc. Qed.

Lemma elem_of_first_seen ks k : k ∈ first_seen ks ↔ k ∈ ks.
Proof.
  induction ks as [|x ks IH] using rev_ind.
  - done.
  - rewrite first_seen_snoc, elem_of_app, list_elem_of_singleton.
    case_decide as Hin; rewrite ?elem_of_app, ?list_elem_of_singleton, IH; [|done].
    split; [by left|]. intros [?| ->]; [done|by apply IH].
Qed.

Lemma NoDup_first_seen ks : NoDup (first_seen ks).
Proof.
  induction ks as [|x ks IH] using rev_ind.
  - constructor.
  - rewrite first_seen_snoc. case_decide as Hin; [done|].
    apply NoDup_app. split_and!; [done| |apply NoDup_singleton].
    intros y Hy ->%list_elem_of_singleton. done.
Qed.

Lemma first_seen_nil_inv ks : first_seen ks = [] → ks = [].
Proof.
  destruct ks as [|k ks]; [done|]. intros Hnil.
  assert (k ∈ first_seen (k :: ks)) as Hin by (apply elem_of_first_seen; left).
  rewrite Hnil in Hin. by apply not_elem_of_nil in Hin.
Qed.

Lemma filter_none {A} (P : A → Prop) `{∀ x, Decision (P x)} (l : list A) :
  (∀ x, x ∈ l → ¬ P x) → filter P l = [].
Proof.
  induction l as [|x l IH]; intros Hl; [done|].
  rewrite filter_cons_False by (apply Hl; left).
  apply IH. intros y Hy. apply Hl. by right.
Qed.


(** A conditional update in a loop is a loop over the selected items. *)
Lemma foldl_filter {A B} (f : A → B → A) (p : B → bool) (a : A) (l : list B) :
  foldl (fun a x => if p x then f a x else a) a l = foldl f a (filter (fun x => p x) l).
Proof.
  revert a. induction l as [|x l IH]; intros a; [done|].
  rewrite filter_cons. simpl. destruct (p x); simpl; apply IH.
Qed.

Lemma foldl_fmap {A B C} (f : A → C → A) (g : B → C) (a : A) (l : list B) :
  foldl (fun a x => f a (g x)) a l = foldl f a (g <$> l).
Proof. revert a. induction l as [|x l IH]; intros a; [done|]. simpl. apply IH. Qed.

Lemma dict_update_fresh dflt (f : V → V) k d :
  k ∉ d.*1 → dict_update dflt f k d = d ++ [(k, f dflt)].
Proof.
  induction d as [|[k' v] d IH]; intros Hk; [done|].
  csimpl in *. apply not_elem_of_cons in Hk as [Hne Hk].
  rewrite decide_False by done. by rewrite IH.
Qed.

Lemma dict_update_present dflt (f : V → V) k (h : K → V) ks :
  k ∈ ks → NoDup ks →
  dict_update dflt f k ((fun k' => (k', h k')) <$> ks) =
  (fun k' => (k', if decide (k' = k) then f (h k') else h k')) <$> ks.
Proof.
  induction ks as [|k' ks IH]; intros Hin Hnd; [by apply not_elem_of_nil in Hin|].
  apply NoDup_cons in Hnd as [Hk' Hnd]. csimpl.
  destruct (decide (k' = k)) as [->|Hne].
  - f_equal. apply list_eq_Forall2, Forall2_fmap, Forall_Forall2_diag, Forall_forall.
    intros x Hx. rewrite decide_False; [done|]. by intros ->.
  - f_equal. apply IH; [|done]. apply elem_of_cons in Hin as [?|?]; [congruence|done].
Qed.

(** The dict built by one pass that updates the entry of [key x] with
    [upd x]: its keys are the keys seen, in first-seen order, and each
    value is the fold of the updates of the items with that key. *)
Definition group_value (key : X → K) (upd : X → V → V) dflt (xs : list X) k : V :=
  foldl (fun v x => upd x v) dflt (filter (fun x => key x = k) xs).

Lemma foldl_dict_update (key : X → K) (upd : X → V → V) dflt (xs : list X) :
  foldl (fun d x => dict_update dflt (upd x) (key x) d) [] xs =
  (fun k => (k, group_value key upd dflt xs k)) <$> first_seen (key <$> xs).
Proof.
  induction xs as [|x xs IH] using rev_ind; [done|].
  rewrite foldl_snoc, IH, fmap_app. change (key <$> [x]) with [key x].
  rewrite first_seen_snoc.
  assert (∀ k, group_value key upd dflt (xs ++ [x]) k =
               if decide (key x = k) then upd x (group_value key upd dflt xs k)
               else group_value key upd dflt xs k) as Hval.
  { intros k. unfold group_value. rewrite filter_app, filter_cons, filter_nil.
    case_decide; [by rewrite foldl_snoc|by rewrite app_nil_r]. }
  case_decide as Hin.
  - rewrite dict_update_present by (done || apply NoDup_first_seen).
    apply list_fmap_ext. intros _ k _. rewrite Hval.
    repeat case_decide; congruence.
  - rewrite dict_update_fresh.
    2:{ rewrite <-list_fmap_compose.
        rewrite (list_fmap_ext _ id (first_seen (key <$> xs))), list_fmap_id; done. }
    rewrite fmap_app. f_equal.
    + apply list_fmap_ext. intros _ k Hk%list_elem_of_lookup_2.
      rewrite Hval, decide_False; [done|]. by intros <-.
    + csimpl. rewrite Hval, decide_True by done. do 3 f_equal.
      unfold group_value. rewrite filter_none; [done|].
      intros y Hy Hkey. apply Hin, elem_of_first_seen.
      apply list_elem_of_fmap. eauto.
Qed.
End Grouping.


Lemma foldl_filter_dec {A B} (f : A → B → A) (P : B → Prop) `{∀ x, Decision (P x)}
    (a : A) (l : list B) :
  foldl (fun a x => if decide (P x) then f a x else a) a l = foldl f a (filter P l).
Proof.
  revert a. induction l as [|x l IH]; intros a; [done|].
  rewrite filter_cons. simpl. destruct (decide (P x)); simpl; apply IH.
Qed.

(** [sorted] returns a sorted rearrangement of its argument. *)
Section SortedFacts.
Context {A : Type} (leb : A → A → bool).
Hypothesis leb_total : ∀ x y, leb x y = true ∨ leb y x = true.

Lemma insert_sorted_Permutation (x : A) (l : list A) :
  insert_sorted leb x l ≡ₚ x :: l.
Proof.
  induction l as [|y l IH]; [done|]. simpl.
  destruct (leb y x); [|done]. rewrite IH. apply Permutation_swap.
Qed.

Lemma sorted_Permutation (l : list A) : sorted leb l ≡ₚ l.
Proof.
  unfold sorted. induction l as [|x l IH] using rev_ind; [done|].
  rewrite foldl_snoc, insert_sorted_Permutation, IH.
  by rewrite (Permutation_app_comm l [x]).
Qed.

Lemma length_sorted (l : list A) : length (sorted leb l) = length l.
Proof. by rewrite sorted_Permutation. Qed.

Lemma insert_sorted_Sorted (x : A) (l : list A) :
  Sorted (fun a b => leb a b = true) l →
  Sorted (fun a b => leb a b = true) (insert_sorted leb x l).
Proof.
  induction l as [|y l IH]; intros Hs; simpl.
  - by repeat constructor.
  - apply Sorted_inv in Hs as [Hs Hhd].
    destruct (leb y x) eqn:Hyx.
    + constructor; [by apply IH|].
      destruct l as [|z l]; simpl.
      * by constructor.
      * apply HdRel_inv in Hhd. destruct (leb z x); by constructor.
    + constructor; [by constructor|]. constructor.
      destruct (leb_total x y); congruence.
Qed.

Lemma sorted_Sorted (l : list A) : Sorted (fun a b => leb a b = true) (sorted leb l).
Proof.
  unfold sorted. induction l as [|x l IH] using rev_ind; [constructor|].
  rewrite foldl_snoc. by apply insert_sorted_Sorted.
Qed.
End SortedFacts.

(** [range] and [index] in terms of positions. *)
Lemma elem_of_range (n i : Z) : i ∈ range n ↔ 0 ≤ i < n.
Proof.
  unfold range. rewrite list_elem_of_fmap. split.
  - intros (k & -> & Hk%elem_of_seq). lia.
  - intros Hi. exists (Z.to_nat i). split; [lia|]. apply elem_of_seq. lia.
Qed.

Lemma index_nonneg {A} (l : list A) (i : Z) :
  0 ≤ i → index l i = l !! Z.to_nat i.
Proof.
  intros Hi. unfold index.
  destruct (Z.ltb_spec i (Z.of_nat (length l))).
  - by rewrite (proj2 (Z.leb_le 0 i)) by done.
  - rewrite (proj2 (Z.leb_le 0 i)) by done. simpl.
    rewrite (proj2 (Z.ltb_ge i 0)) by done. rewrite andb_false_r.
    symmetry. apply lookup_ge_None. lia.
Qed.


(** The order on datetimes is total. *)
Lemma lex_leb_total (a b : list Z) :
  Datetime.lex_leb a b = true ∨ Datetime.lex_leb b a = true.
Proof.
  revert b. induction a as [|x a IH]; intros [|y b]; simpl; auto.
  destruct (IH b) as [Hab|Hba].
  - destruct (Z.ltb_spec x y); [by left|]. destruct (Z.ltb_spec y x); [by right|].
    left. rewrite (proj2 (Z.eqb_eq x y)) by lia. done.
  - destruct (Z.ltb_spec x y); [by left|]. destruct (Z.ltb_spec y x); [by right|].
    right. rewrite (proj2 (Z.eqb_eq y x)) by lia. done.
Qed.

Lemma datetime_leb_total (a b : Datetime.datetime) :
  Datetime.leb a b = true ∨ Datetime.leb b a = true.
Proof. apply lex_leb_total. Qed.


(** *** Scanning text *)

Lemma append_cons (a : ascii) (s t : string) : String a s +:+ t = String a (s +:+ t).
Proof. reflexivity. Qed.

Lemma append_nil (t : string) : "" +:+ t = t.
Proof. reflexivity. Qed.

Lemma append_nil_r (s : string) : s +:+ "" = s.
Proof. induction s as [|a s IH]; [done|]. by rewrite append_cons, IH. Qed.

Lemma append_not_nil_r (s t : string) : t ≠ "" → s +:+ t ≠ "".
Proof. by destruct s. Qed.

Lemma append_not_nil_l (s t : string) : s ≠ "" → s +:+ t ≠ "".
Proof. by destruct s. Qed.

Lemma string_eqb_nil (s : string) : s ≠ "" → String.eqb s "" = false.
Proof. by destruct s. Qed.

Lemma literal_app (lit s : string) : literal lit (lit +:+ s) = Some s.
Proof.
  induction lit as [|a lit IH]; [done|].
  rewrite append_cons. simpl. rewrite Ascii.eqb_refl. exact IH.
Qed.

(** A string is a token for the class [p]: not empty, all its characters
    in [p]. *)
Definition token (p : ascii → bool) (s : string) : Prop :=
  s ≠ "" ∧ all_chars p s = true.

Lemma span_token (p : ascii → bool) (e : string) (c : ascii) (s : string) :
  all_chars p e = true → p c = false → span p (e +:+ String c s) = (e, String c s).
Proof.
  intros He Hc. induction e as [|a e IH].
  - simpl. by rewrite Hc.
  - simpl in He. apply andb_true_iff in He as [Ha He].
    rewrite append_cons. simpl. by rewrite Ha, IH.
Qed.

Lemma span_token_end (p : ascii → bool) (e : string) :
  all_chars p e = true → span p e = (e, "").
Proof.
  intros He. induction e as [|a e IH]; [done|].
  simpl in He. apply andb_true_iff in He as [Ha He].
  simpl. by rewrite Ha, IH.
Qed.

Lemma rstrip_token (u s : string) :
  token (fun c => negb (is_space c)) u → rstrip (u +:+ s) = u +:+ rstrip s.
Proof.
  intros [Hne Hall]. induction u as [|a u IH]; [done|].
  simpl in Hall. apply andb_true_iff in Hall as [Ha Hall].
  rewrite !append_cons. simpl.
  apply negb_true_iff in Ha. rewrite Ha, andb_false_r. f_equal.
  destruct u as [|b u]; [done|]. by apply IH.
Qed.

Lemma rstrip_app (a s : string) :
  rstrip s ≠ "" → rstrip (a +:+ s) = a +:+ rstrip s.
Proof.
  intros Hs. induction a as [|c a IH]; [done|].
  rewrite !append_cons. simpl. rewrite IH.
  by rewrite (string_eqb_nil (a +:+ rstrip s)) by (by apply append_not_nil_r).
Qed.

End PyFacts.

(** ** [strptime] inverts [strftime] *)

Module DatetimeFacts.
Import Py PyFacts Datetime.

Lemma range_forallb (P : Z → bool) (n i : Z) :
  forallb P (range n) = true → 0 ≤ i < n → P i = true.
Proof.
  intros Hall Hi. apply Is_true_true_2, forallb_True in Hall.
  rewrite Forall_forall in Hall. apply Is_true_true_1, Hall, elem_of_range. lia.
Qed.

(** The text [pad 2 n] is two characters that the two-character
    alternatives [alts] of a directive accept, with value [n]. *)
Definition two_digit_ok (alts : ascii → ascii → bool) (n : Z) : bool :=
  match pad 2 n with
  | String a (String b EmptyString) =>
      alts a b && is_digit a && is_digit b && (10 * digit_val a + digit_val b =? n)
  | _ => false
  end.

Definition alts_m (a b : ascii) : bool :=
  is_char "1" a && in_range "0" "2" b || is_char "0" a && in_range "1" "9" b.
Definition alts_d (a b : ascii) : bool :=
  is_char "3" a && in_range "0" "1" b || in_range "1" "2" a && is_digit b
  || is_char "0" a && in_range "1" "9" b.
Definition alts_H (a b : ascii) : bool :=
  is_char "2" a && in_range "0" "3" b || in_range "0" "1" a && is_digit b.
Definition alts_M (a b : ascii) : bool := in_range "0" "5" a && is_digit b.
Definition alts_S (a b : ascii) : bool :=
  is_char "6" a && in_range "0" "1" b || in_range "0" "5" a && is_digit b.

Definition four_digit_ok (n : Z) : bool :=
  match pad 4 n with
  | String a (String b (String c (String d EmptyString))) =>
      is_digit a && is_digit b && is_digit c && is_digit d &&
      (digits_val 0 (String a (String b (String c (String d "")))) =? n)
  | _ => false
  end.

Lemma month_ok (n : Z) : 1 ≤ n ≤ 12 → two_digit_ok alts_m n = true.
Proof.
  intros Hn.
  pose proof (range_forallb (fun n => (n <? 1) || two_digit_ok alts_m n) 13 n ltac:(by vm_compute) ltac:(lia)) as Hok.
  simpl in Hok. by rewrite (proj2 (Z.ltb_ge n 1)) in Hok by lia.
Qed.

Lemma day_ok (n : Z) : 1 ≤ n ≤ 31 → two_digit_ok alts_d n = true.
Proof.
  intros Hn.
  pose proof (range_forallb (fun n => (n <? 1) || two_digit_ok alts_d n) 32 n ltac:(by vm_compute) ltac:(lia)) as Hok.
  simpl in Hok. by rewrite (proj2 (Z.ltb_ge n 1)) in Hok by lia.
Qed.

Lemma hour_ok (n : Z) : 0 ≤ n ≤ 23 → two_digit_ok alts_H n = true.
Proof. intros Hn. apply (range_forallb _ 24 n); [by vm_compute|lia]. Qed.

Lemma minute_ok (n : Z) : 0 ≤ n ≤ 59 → two_digit_ok alts_M n = true.
Proof. intros Hn. apply (range_forallb _ 60 n); [by vm_compute|lia]. Qed.

Lemma second_ok (n : Z) : 0 ≤ n ≤ 59 → two_digit_ok alts_S n = true.
Proof. intros Hn. apply (range_forallb _ 60 n); [by vm_compute|lia]. Qed.

Lemma year_ok (n : Z) : 1000 ≤ n ≤ 9999 → four_digit_ok n = true.
Proof.
  intros Hn.
  pose proof (range_forallb (fun n => (n <? 1000) || four_digit_ok n) 10000 n ltac:(by vm_compute) ltac:(lia)) as Hok.
  simpl in Hok. by rewrite (proj2 (Z.ltb_ge n 1000)) in Hok by lia.
Qed.


Lemma two_digit_ok_inv (alts : ascii → ascii → bool) (n : Z) :
  two_digit_ok alts n = true →
  ∃ a b, pad 2 n = String a (String b "") ∧ alts a b = true ∧
         10 * digit_val a + digit_val b = n ∧ is_digit a = true ∧ is_digit b = true.
Proof.
  unfold two_digit_ok. destruct (pad 2 n) as [|a [|b [|? ?]]]; try done.
  intros [[[Halts Ha]%andb_true_iff Hb]%andb_true_iff Hval%Z.eqb_eq]%andb_true_iff.
  exists a, b. by split_and!.
Qed.

Lemma four_digit_ok_inv (n : Z) :
  four_digit_ok n = true →
  ∃ a b c d, pad 4 n = String a (String b (String c (String d ""))) ∧
    is_digit a && is_digit b && is_digit c && is_digit d = true ∧
    digits_val 0 (String a (String b (String c (String d "")))) = n.
Proof.
  unfold four_digit_ok. destruct (pad 4 n) as [|a [|b [|c [|d [|? ?]]]]]; try done.
  intros [Hdigits Hval%Z.eqb_eq]%andb_true_iff. by exists a, b, c, d.
Qed.

(** On two characters that one of its two-character alternatives accepts,
    a directive matches first with those two characters. *)
Lemma re_m_two (a b : ascii) (rest : string) :
  alts_m a b = true →
  ∃ others, re_m (String a (String b rest)) = (10 * digit_val a + digit_val b, rest) :: others.
Proof.
  unfold alts_m, re_m, re_two. intros Halts.
  destruct (is_char "1" a && in_range "0" "2" b); simpl in *; [eauto|].
  rewrite Halts. simpl. eauto.
Qed.

Lemma re_d_two (a b : ascii) (rest : string) :
  alts_d a b = true →
  ∃ others, re_d (String a (String b rest)) = (10 * digit_val a + digit_val b, rest) :: others.
Proof.
  unfold alts_d, re_d, re_two. intros Halts.
  destruct (is_char "3" a && in_range "0" "1" b); simpl in *; [eauto|].
  destruct (in_range "1" "2" a && is_digit b); simpl in *; [eauto|].
  rewrite Halts. simpl. eauto.
Qed.

Lemma re_H_two (a b : ascii) (rest : string) :
  alts_H a b = true →
  ∃ others, re_H (String a (String b rest)) = (10 * digit_val a + digit_val b, rest) :: others.
Proof.
  unfold alts_H, re_H, re_two. intros Halts.
  destruct (is_char "2" a && in_range "0" "3" b); simpl in *; [eauto|].
  rewrite Halts. simpl. eauto.
Qed.

Lemma re_M_two (a b : ascii) (rest : string) :
  alts_M a b = true →
  ∃ others, re_M (String a (String b rest)) = (10 * digit_val a + digit_val b, rest) :: others.
Proof. unfold alts_M, re_M, re_two. intros ->. simpl. eauto. Qed.

Lemma re_S_two (a b : ascii) (rest : string) :
  alts_S a b = true →
  ∃ others, re_S (String a (String b rest)) = (10 * digit_val a + digit_val b, rest) :: others.
Proof.
  unfold alts_S, re_S, re_two. intros Halts.
  destruct (is_char "6" a && in_range "0" "1" b); simpl in *; [eauto|].
  rewrite Halts. simpl. eauto.
Qed.

Lemma bind_first {A B} (f : A → list B) (l : list A) (x : A) (xs : list A) (y : B) :
  l = x :: xs → (∃ zs, f x = y :: zs) → ∃ zs, l ≫= f = y :: zs.
Proof. intros -> (zs & Hf). rewrite bind_cons, Hf. simpl. eauto. Qed.

Lemma re_letter_same (c : ascii) (rest : string) : re_letter c (String c rest) = [rest].
Proof. unfold re_letter. by rewrite Ascii.eqb_refl. Qed.

Lemma days_in_month_le (y m : Z) : days_in_month y m ≤ 31.
Proof.
  unfold days_in_month. case_match; [lia|].
  generalize (Z.to_nat (m - 1)). intros i.
  do 12 (destruct i as [|i]; [simpl; lia|]). simpl. lia.
Qed.

(** One directive of the expression matched on its two characters. *)
Local Ltac directive lemma H :=
  match goal with
  | |- ∃ _, ?re (String ?a (String ?b ?r)) ≫= _ = _ =>
      let others := fresh "others" in
      let E := fresh "E" in
      destruct (lemma a b r H) as (others & E);
      apply (bind_first _ _ _ _ _ E); cbv beta iota; clear others E
  end.

Local Ltac letter :=
  match goal with
  | |- ∃ _, re_letter ?c (String ?c ?r) ≫= _ = _ =>
      apply (bind_first _ _ _ _ _ (re_letter_same c r)); cbv beta iota
  end.

(** A datetime that [strftime] writes with a four-digit year. *)
Definition printable (d : datetime) : Prop :=
  valid d = true ∧ 1000 ≤ year d ∧ microsecond d = 0.

(** The fourteen digits [strftime] writes. *)
Local Ltac strftime_digits d :=
  match goal with
  | Hd : printable d |- _ =>
      let Hvalid := fresh "Hvalid" in
      let Hyear := fresh "Hyear" in
      let Hus := fresh "Hus" in
      destruct Hd as (Hvalid & Hyear & Hus); unfold valid, check_fields in Hvalid;
      repeat (apply andb_true_iff in Hvalid as [Hvalid ?]);
      pose proof (days_in_month_le (year d) (month d))
  end.

Lemma is_digit_not_space (c : ascii) : is_digit c = true → Logs.not_space c = true.
Proof.
  unfold is_digit, Logs.not_space, is_space.
  intros [Hlo%Nat.leb_le Hhi%Nat.leb_le]%andb_true_iff.
  apply negb_true_iff, orb_false_iff. split; apply andb_false_iff; right;
    apply Nat.leb_gt; lia.
Qed.

Lemma strftime_token (d : datetime) :
  printable d → token Logs.not_space (strftime d).
Proof.
  intros Hd. strftime_digits d.
  destruct (four_digit_ok_inv (year d)) as (y1 & y2 & y3 & y4 & HY & HYd & HYv);
    [apply year_ok; lia|].
  destruct (two_digit_ok_inv alts_m (month d)) as (m1 & m2 & Hm & _ & _ & ? & ?);
    [apply month_ok; lia|].
  destruct (two_digit_ok_inv alts_d (day d)) as (d1 & d2 & Hdd & _ & _ & ? & ?);
    [apply day_ok; lia|].
  destruct (two_digit_ok_inv alts_H (hour d)) as (h1 & h2 & Hh & _ & _ & ? & ?);
    [apply hour_ok; lia|].
  destruct (two_digit_ok_inv alts_M (minute d)) as (n1 & n2 & Hn & _ & _ & ? & ?);
    [apply minute_ok; lia|].
  destruct (two_digit_ok_inv alts_S (second d)) as (s1 & s2 & Hs & _ & _ & ? & ?);
    [apply second_ok; lia|].
  do 3 (apply andb_true_iff in HYd as [HYd ?]).
  unfold strftime. rewrite HY, Hm, Hdd, Hh, Hn, Hs.
  rewrite !append_cons, !append_nil. split; [done|].
  cbn [all_chars].
  repeat match goal with
         | H : is_digit ?c = true |- _ => rewrite (is_digit_not_space c H); clear H
         end.
  reflexivity.
Qed.

Lemma strptime_matches_strftime (d : datetime) :
  printable d →
  ∃ others,
    strptime_matches (strftime d) =
    (year d, month d, day d, hour d, minute d, second d, "") :: others.
Proof.
  intros Hd. pose proof Hd as (_ & Hyear & _). strftime_digits d.
  destruct (four_digit_ok_inv (year d)) as (y1 & y2 & y3 & y4 & HY & HYd & HYv);
    [apply year_ok; lia|].
  destruct (two_digit_ok_inv alts_m (month d)) as (m1 & m2 & Hm & Hma & Hmv & _);
    [apply month_ok; lia|].
  destruct (two_digit_ok_inv alts_d (day d)) as (d1 & d2 & Hdd & Hda & Hdv & _);
    [apply day_ok; lia|].
  destruct (two_digit_ok_inv alts_H (hour d)) as (h1 & h2 & Hh & Hha & Hhv & _);
    [apply hour_ok; lia|].
  destruct (two_digit_ok_inv alts_M (minute d)) as (n1 & n2 & Hn & Hna & Hnv & _);
    [apply minute_ok; lia|].
  destruct (two_digit_ok_inv alts_S (second d)) as (s1 & s2 & Hs & Hsa & Hsv & _);
    [apply second_ok; lia|].
  unfold strftime. rewrite HY, Hm, Hdd, Hh, Hn, Hs.
  rewrite !append_cons, !append_nil.
  unfold strptime_matches.
  assert (∀ rest, re_Y (String y1 (String y2 (String y3 (String y4 rest))))
                  = [(year d, rest)]) as HreY.
  { intros rest. unfold re_Y. by rewrite HYd, HYv. }
  apply (bind_first _ _ _ _ _ (HreY _)); cbv beta iota.
  directive re_m_two Hma. directive re_d_two Hda. letter.
  directive re_H_two Hha. directive re_M_two Hna. directive re_S_two Hsa. letter.
  rewrite Hmv, Hdv, Hhv, Hnv, Hsv. eauto.
Qed.

Theorem strptime_strftime (d : datetime) :
  printable d → strptime (strftime d) = Some d.
Proof.
  intros Hd. destruct (strptime_matches_strftime d Hd) as (others & Hm).
  unfold strptime. rewrite Hm. simpl.
  destruct Hd as (Hvalid & _ & Hus). unfold make. unfold valid in Hvalid.
  rewrite Hus in Hvalid. rewrite Hvalid. destruct d; simpl in *. by subst.
Qed.

End DatetimeFacts.

(** ** The in-memory analyser *)

Module AppFacts.
Import Py PyFacts Datetime App.

(** A log entry with the four fields of the field-anchored line format. *)
Definition entry (event_id time_created computer user : string) : log :=
  <["EventID" := event_id]> (<["TimeCreated" := time_created]>
    (<["Computer" := computer]> (<["User" := user]> ∅))).

(** *** [detect_suspicious_users] *)

Lemma elem_of_suspicious_set (logs : list log) (x : option string) :
  x ∈ suspicious_set logs ↔
  ∃ l, l ∈ logs ∧ l !! "User" = x ∧ matches_pattern (lower (default "" x)) = true.
Proof.
  unfold suspicious_set.
  induction logs as [|l logs IH] using rev_ind.
  - simpl. split; [by intros ?%not_elem_of_empty|].
    by intros (l & ?%not_elem_of_nil & _).
  - rewrite foldl_snoc.
    destruct (matches_pattern (lower (default "" (l !! "User")))) eqn:Hm.
    + rewrite elem_of_union, elem_of_singleton, IH. split.
      * intros [->|(l' & Hl' & Hu & Hp)].
        -- exists l. split_and!; [|done..]. apply elem_of_app. right. left.
        -- exists l'. split_and!; [|done..]. apply elem_of_app. by left.
      * intros (l' & [Hl'| ->%list_elem_of_singleton]%elem_of_app & Hu & Hp).
        -- right. eauto.
        -- by left.
    + rewrite IH. split.
      * intros (l' & Hl' & Hu & Hp). exists l'. split_and!; [|done..].
        apply elem_of_app. by left.
      * intros (l' & [Hl'| ->%list_elem_of_singleton]%elem_of_app & Hu & Hp).
        -- eauto.
        -- subst x. congruence.
Qed.

Definition two_admins : list log :=
  [entry "4672" "20230101T100000Z" "DC01" "backup_admin@domain.com";
   entry "4624" "20230101T030000Z" "SRV01" "admin@domain.com"].

(** C1.  Whenever the record set holds an entry of user
    [backup_admin@domain.com] and one of [admin@domain.com],
    [detect_suspicious_users] returns both of them: the exclusion compares
    the whole lower-cased user text with [backup_admin], so it spares only
    an account that is literally [backup_admin], which is never returned. *)
Theorem detect_suspicious_users_backup_admin (logs : list log) (l1 l2 : log) :
  l1 ∈ logs → l1 !! "User" = Some "backup_admin@domain.com" →
  l2 ∈ logs → l2 !! "User" = Some "admin@domain.com" →
  Some "admin@domain.com" ∈ detect_suspicious_users logs ∧
  Some "backup_admin@domain.com" ∈ detect_suspicious_users logs ∧
  Some "backup_admin" ∉ detect_suspicious_users logs.
Proof.
  intros Hl1 Hu1 Hl2 Hu2. unfold detect_suspicious_users.
  rewrite !elem_of_elements, !elem_of_suspicious_set. split_and!.
  - exists l2. split_and!; [done..|]. by vm_compute.
  - exists l1. split_and!; [done..|]. by vm_compute.
  - intros (l & _ & _ & Hp). by vm_compute in Hp.
Qed.

Lemma detect_suspicious_users_backup_admin_witness :
  Some "admin@domain.com" ∈ detect_suspicious_users two_admins ∧
  Some "backup_admin@domain.com" ∈ detect_suspicious_users two_admins ∧
  Some "backup_admin" ∉ detect_suspicious_users two_admins.
Proof.
  apply (detect_suspicious_users_backup_admin two_admins
           (entry "4672" "20230101T100000Z" "DC01" "backup_admin@domain.com")
           (entry "4624" "20230101T030000Z" "SRV01" "admin@domain.com")).
  - left.
  - reflexivity.
  - right. left.
  - reflexivity.
Defined.

(** *** [count_failed_logins] *)

Definition failed_logins (logs : list log) : list log :=
  filter (fun l => is_failed_login l) logs.

(** The number of failed-login records of a user. *)
Definition failures_of (logs : list log) (u : string) : nat :=
  length (filter (fun l => user_of l = u) (failed_logins logs)).


Lemma counter_fold (logs : list log) :
  foldl (fun failed_logins l =>
           if is_failed_login l
           then dict_update 0%nat S (user_of l) failed_logins
           else failed_logins) [] logs =
  (fun u => (u, failures_of logs u)) <$> first_seen (user_of <$> failed_logins logs).
Proof.
  rewrite (foldl_filter (fun d l => dict_update 0%nat S (user_of l) d)).
  rewrite (foldl_dict_update user_of (fun _ => S)).
  apply list_fmap_ext. intros _ u _. f_equal.
  unfold group_value, failures_of, failed_logins.
  generalize (filter (fun l => user_of l = u) (filter (fun l => is_failed_login l) logs)).
  intros l. induction l as [|x l IH] using rev_ind; [done|].
  rewrite foldl_snoc, length_app, IH. simpl. lia.
Qed.







(** *** [get_login_timeline] *)

Lemma timeline_step_app (timeline : list event) (l : log) :
  timeline_step timeline l = timeline ++ timeline_step [] l.
Proof.
  unfold timeline_step.
  repeat (case_match; try done); by rewrite app_nil_r.
Qed.

Lemma get_login_timeline_snoc (logs : list log) (l : log) :
  get_login_timeline (logs ++ [l]) = get_login_timeline logs ++ timeline_step [] l.
Proof. unfold get_login_timeline. by rewrite foldl_snoc, timeline_step_app. Qed.

Lemma get_login_timeline_app (logs1 logs2 : list log) :
  get_login_timeline (logs1 ++ logs2) = get_login_timeline logs1 ++ get_login_timeline logs2.
Proof.
  induction logs2 as [|l logs2 IH] using rev_ind.
  - by rewrite !app_nil_r.
  - by rewrite app_assoc, !get_login_timeline_snoc, IH, app_assoc.
Qed.

Lemma get_login_timeline_cons (l : log) (logs : list log) :
  get_login_timeline (l :: logs) = timeline_step [] l ++ get_login_timeline logs.
Proof. change (l :: logs) with ([l] ++ logs). by rewrite get_login_timeline_app. Qed.

(** What one record contributes to the timeline. *)
Lemma timeline_step_event (l : log) (e : event) :
  e ∈ timeline_step [] l →
  is_login l = true ∧
  ∃ time_str, l !! "TimeCreated" = Some time_str ∧
    strptime time_str = Some (timestamp e) ∧
    outcome e = (if bool_decide (l !! "EventID" = Some "4624") then Success else Failure) ∧
    user e = user_of l ∧ computer e = computer_of l.
Proof.
  unfold timeline_step.
  destruct (is_login l); [|by intros ?%not_elem_of_nil].
  destruct (l !! "TimeCreated") as [time_str|] eqn:Ht; simpl;
    [|by intros ?%not_elem_of_nil].
  destruct (String.eqb time_str ""); simpl; [by intros ?%not_elem_of_nil|].
  destruct (strptime time_str) as [dt|] eqn:Hp; [|by intros ?%not_elem_of_nil].
  intros ->%list_elem_of_singleton. split; [done|]. by exists time_str.
Qed.

Lemma timeline_step_not_login (l : log) :
  is_login l = false → timeline_step [] l = [].
Proof. unfold timeline_step. by intros ->. Qed.


Lemma elem_of_get_login_timeline (logs : list log) (e : event) :
  e ∈ get_login_timeline logs ↔ ∃ l, l ∈ logs ∧ e ∈ timeline_step [] l.
Proof.
  induction logs as [|l logs IH].
  - split; [by intros ?%not_elem_of_nil|by intros (? & ?%not_elem_of_nil & _)].
  - rewrite get_login_timeline_cons, elem_of_app, IH. split.
    + intros [?|(l' & ? & ?)]; [exists l|exists l']; split; try done; [left|by right].
    + intros (l' & [->|?]%elem_of_cons & ?); [by left|right; eauto].
Qed.





(** *** [detect_unusual_activity] *)

Lemma hour_counts_lookup (timeline : list event) (h : Z) :
  default 0%nat (hour_counts timeline !! h) =
  length (filter (fun e => hour (timestamp e) = h) timeline).
Proof.
  unfold hour_counts.
  induction timeline as [|e timeline IH] using rev_ind; [done|].
  rewrite foldl_snoc, filter_app, length_app, filter_cons, filter_nil.
  destruct (decide (hour (timestamp e) = h)) as [->|Hne].
  - rewrite lookup_insert_eq. simpl. rewrite IH. lia.
  - rewrite lookup_insert_ne by done. rewrite IH. simpl. lia.
Qed.

(** Some event of the timeline falls in hour [h]. *)
Definition event_at_hour (timeline : list event) (h : Z) : Prop :=
  Exists (fun e => hour (timestamp e) = h) timeline.

Lemma unusual_hours_spec (timeline : list event) :
  unusual_hours timeline = filter (event_at_hour timeline) [0; 1; 2; 3; 4].
Proof.
  unfold unusual_hours. change (range 5) with [0; 1; 2; 3; 4].
  apply list_filter_iff. intros h. rewrite hour_counts_lookup.
  unfold event_at_hour. rewrite Exists_exists. split.
  - intros Hpos. destruct (filter _ timeline) as [|e ?] eqn:Hf; [simpl in Hpos; lia|].
    assert (e ∈ filter (fun e => hour (timestamp e) = h) timeline) as He
      by (rewrite Hf; left).
    apply list_elem_of_filter in He as [? ?]. eauto.
  - intros (e & He & Hh).
    assert (e ∈ filter (fun e => hour (timestamp e) = h) timeline) as Hin
      by (by apply list_elem_of_filter).
    destruct (filter _ timeline); [by apply not_elem_of_nil in Hin|simpl; lia].
Qed.

(** A finding about login hours, as opposed to one about computers. *)
Definition is_hours_finding (finding : string) : bool :=
  startswith "Unusual login hours detected: " finding.

Lemma startswith_app (p s : string) : startswith p (p +:+ s) = true.
Proof. induction p as [|a p IH]; [done|]. simpl. by rewrite Ascii.eqb_refl. Qed.

Lemma hours_finding_is_hours_finding (hours : list Z) :
  is_hours_finding (hours_finding hours) = true.
Proof. apply startswith_app. Qed.

Lemma computers_finding_not_hours_finding (user : string) (computers : gset string) :
  is_hours_finding (computers_finding user computers) = false.
Proof. reflexivity. Qed.

(** The second loop only appends findings about computers. *)
Lemma computers_loop_spec (init : list string) (ucs : list (string * gset string)) :
  foldl (fun unusual_activity '(user, computers) =>
           if decide (2 < size computers)%nat
           then unusual_activity ++ [computers_finding user computers]
           else unusual_activity) init ucs =
  init ++ ((fun uc => computers_finding uc.1 uc.2) <$>
           filter (fun uc => (2 < size uc.2)%nat) ucs).
Proof.
  revert init. induction ucs as [|[u cs] ucs IH]; intros init.
  - by rewrite app_nil_r.
  - simpl. rewrite IH, filter_cons. simpl.
    case_decide; [|done]. by rewrite <-app_assoc.
Qed.

Lemma detect_unusual_activity_spec (logs : list log) :
  detect_unusual_activity logs =
  (let hours := unusual_hours (get_login_timeline logs) in
   if decide (hours = []) then [] else [hours_finding hours]) ++
  ((fun uc => computers_finding uc.1 uc.2) <$>
   filter (fun uc => (2 < size uc.2)%nat) (user_computers (get_login_timeline logs))).
Proof. unfold detect_unusual_activity. by rewrite computers_loop_spec. Qed.

Lemma hours_findings_of_detect_unusual_activity (logs : list log) :
  filter (fun f => is_hours_finding f) (detect_unusual_activity logs) =
  (let hours := unusual_hours (get_login_timeline logs) in
   if decide (hours = []) then [] else [hours_finding hours]).
Proof.
  rewrite detect_unusual_activity_spec, filter_app. simpl.
  rewrite (filter_none _ (_ <$> _)).
  2:{ intros f (uc & -> & _)%list_elem_of_fmap Hf.
      by rewrite computers_finding_not_hours_finding in Hf. }
  rewrite app_nil_r. case_decide; [done|].
  rewrite filter_cons_True, filter_nil; [done|].
  by rewrite hours_finding_is_hours_finding.
Qed.

Definition night_logs : list log :=
  [entry "4624" "20230101T031500Z" "SRV01" "admin@domain.com";
   entry "4624" "20230101T090000Z" "WS01" "user1@domain.com";
   entry "4625" "20230101T171000Z" "WS02" "user1@domain.com"].

(** C7.  The findings about login hours among the result of
    [detect_unusual_activity] are: none when no timeline event falls in
    hours 0 to 4, and otherwise exactly one, which names every hour from
    0 to 4 in which some timeline event falls.  In particular, when some
    event falls in hour 3 and none in hours 0, 1, 2 and 4, it is the one
    finding [Unusual login hours detected: 3:00]. *)
Theorem detect_unusual_activity_hours (logs : list log) :
  let timeline := get_login_timeline logs in
  let hours := filter (event_at_hour timeline) [0; 1; 2; 3; 4] in
  filter (fun f => is_hours_finding f) (detect_unusual_activity logs) =
    (if decide (hours = []) then []
     else ["Unusual login hours detected: " +:+ join ", " (str_of_nat <$> hours) +:+ ":00"]) ∧
  (event_at_hour timeline 3 →
   ¬ event_at_hour timeline 0 → ¬ event_at_hour timeline 1 →
   ¬ event_at_hour timeline 2 → ¬ event_at_hour timeline 4 →
   filter (fun f => is_hours_finding f) (detect_unusual_activity logs) =
     ["Unusual login hours detected: 3:00"]).
Proof.
  intros timeline hours.
  rewrite hours_findings_of_detect_unusual_activity. simpl.
  rewrite unusual_hours_spec. fold timeline. fold hours.
  split; [done|].
  intros H3 H0 H1 H2 H4.
  assert (hours = [3]) as ->; [|done].
  unfold hours. rewrite !filter_cons, filter_nil.
  repeat case_decide; done.
Qed.

Lemma detect_unusual_activity_hours_witness :
  filter (fun f => is_hours_finding f) (detect_unusual_activity night_logs) =
    ["Unusual login hours detected: 3:00"].
Proof.
  apply (proj2 (detect_unusual_activity_hours night_logs)); unfold event_at_hour.
  - apply (bool_decide_unpack _). by vm_compute.
  - apply (proj1 (bool_decide_eq_false _)). by vm_compute.
  - apply (proj1 (bool_decide_eq_false _)). by vm_compute.
  - apply (proj1 (bool_decide_eq_false _)). by vm_compute.
  - apply (proj1 (bool_decide_eq_false _)). by vm_compute.
Defined.


(** *** [detect_brute_force] *)

(** The failure timestamps of a user, in timeline order. *)
Definition failure_times (timeline : list event) (u : string) : list datetime :=
  timestamp <$> filter (fun e => user e = u) (filter (fun e => outcome e = Failure) timeline).

Lemma failed_attempts_spec (timeline : list event) :
  failed_attempts timeline =
  (fun u => (u, failure_times timeline u)) <$>
  first_seen (user <$> filter (fun e => outcome e = Failure) timeline).
Proof.
  unfold failed_attempts.
  rewrite (foldl_filter_dec
             (fun d ev => dict_update [] (fun ts => ts ++ [timestamp ev]) (user ev) d)).
  rewrite (foldl_dict_update user (fun ev ts => ts ++ [timestamp ev])).
  apply list_fmap_ext. intros _ u _. f_equal.
  unfold group_value, failure_times.
  generalize (filter (fun e => user e = u) (filter (fun e => outcome e = Failure) timeline)).
  intros l. induction l as [|x l IH] using rev_ind; [done|].
  by rewrite foldl_snoc, fmap_app, IH.
Qed.

Lemma failed_attempts_keys_NoDup (timeline : list event) :
  NoDup (failed_attempts timeline).*1.
Proof.
  rewrite failed_attempts_spec, <-list_fmap_compose.
  rewrite (list_fmap_ext _ id (first_seen _)), list_fmap_id by done.
  apply NoDup_first_seen.
Qed.

Lemma elem_of_failed_attempts (timeline : list event) (u : string) (ts : list datetime) :
  (u, ts) ∈ failed_attempts timeline ↔ ts = failure_times timeline u ∧ ts ≠ [].
Proof.
  rewrite failed_attempts_spec, list_elem_of_fmap. split.
  - intros (u' & [= -> ->] & Hu). split; [done|].
    apply elem_of_first_seen, list_elem_of_fmap in Hu as (e & -> & He).
    unfold failure_times. intros Hnil%fmap_nil_inv.
    assert (e ∈ filter (fun e' => user e' = user e)
                   (filter (fun e' => outcome e' = Failure) timeline)) as Hin
      by (by apply list_elem_of_filter).
    rewrite Hnil in Hin. by apply not_elem_of_nil in Hin.
  - intros [-> Hne]. exists u. split; [done|].
    apply elem_of_first_seen, list_elem_of_fmap.
    unfold failure_times in Hne.
    destruct (filter (fun e => user e = u) _) as [|e l] eqn:Hf; [done|].
    assert (e ∈ filter (fun e => user e = u)
                   (filter (fun e => outcome e = Failure) timeline)) as Hin
      by (rewrite Hf; left).
    apply list_elem_of_filter in Hin as [<- Hin]. eauto.
Qed.

(** The span test at position [i] of the sorted timestamps: the slice of
    [threshold] timestamps starting there spans at most the window. *)
Definition dense_at (sorted_times : list datetime) (threshold window : Z) (i : nat) : Prop :=
  ∃ first last,
    sorted_times !! i = Some first ∧
    sorted_times !! (i + Z.to_nat threshold - 1)%nat = Some last ∧
    sub last first ≤ window * 60 * 1000000.

Lemma window_scan_spec (sorted_times : list datetime) (threshold window : Z) (range : list Z) :
  1 ≤ threshold →
  (∀ i, i ∈ range → 0 ≤ i ≤ Z.of_nat (length sorted_times) - threshold) →
  ∃ hit, window_scan sorted_times threshold window range = Some hit ∧
    (hit = true ↔ ∃ i, i ∈ range ∧ dense_at sorted_times threshold window (Z.to_nat i)).
Proof.
  intros Hthr. induction range as [|i range IH]; intros Hrange.
  - exists false. split; [done|]. split; [done|].
    by intros (i & ?%not_elem_of_nil & _).
  - assert (0 ≤ i ≤ Z.of_nat (length sorted_times) - threshold) as Hi
      by (apply Hrange; left).
    destruct IH as (hit & Hscan & Hhit); [intros j Hj; apply Hrange; by right|].
    simpl. rewrite !index_nonneg by lia.
    destruct (lookup_lt_is_Some_2 sorted_times (Z.to_nat (i + threshold - 1)))
      as [last Hlast]; [lia|].
    destruct (lookup_lt_is_Some_2 sorted_times (Z.to_nat i)) as [first Hfirst]; [lia|].
    rewrite Hlast, Hfirst. simpl.
    assert (Z.to_nat (i + threshold - 1) = (Z.to_nat i + Z.to_nat threshold - 1)%nat)
      as Hidx by lia.
    destruct (Z.leb_spec (sub last first) (window * 60 * 1000000)) as [Hle|Hgt].
    + exists true. split; [done|]. split; [|done]. intros _.
      exists i. split; [left|]. exists first, last. by rewrite <-Hidx.
    + exists hit. split; [done|]. rewrite Hhit. split.
      * intros (j & Hj & Hd). exists j. split; [by right|done].
      * intros (j & [->|Hj]%elem_of_cons & Hd); [|eauto].
        destruct Hd as (f & l & Hf & Hl & Hspan).
        rewrite <-Hidx in Hl. simplify_eq. lia.
Qed.

(** Whether the loop over one user's timestamps flags the user. *)
Definition flagged (threshold window : Z) (timestamps : list datetime) : Prop :=
  ∃ i, dense_at (sorted leb timestamps) threshold window i.

Lemma brute_force_step_spec (threshold window : Z) (brute_force : list (string * nat))
    (user : string) (timestamps : list datetime) :
  1 ≤ threshold →
  user ∉ brute_force.*1 →
  ∃ hit : bool,
    brute_force_step threshold window brute_force (user, timestamps) =
      Some (if hit then brute_force ++ [(user, length timestamps)] else brute_force) ∧
    (hit = true ↔ flagged threshold window timestamps).
Proof.
  intros Hthr Hfresh. unfold brute_force_step, flagged.
  destruct (Z.leb_spec threshold (Z.of_nat (length timestamps))) as [Hlen|Hlen].
  - destruct (window_scan_spec (sorted leb timestamps) threshold window
                (range (Z.of_nat (length (sorted leb timestamps)) - threshold + 1)))
      as (hit & -> & Hhit); [done| |].
    { intros i Hi%elem_of_range. lia. }
    exists hit. split.
    + simpl. destruct hit; [|done]. by rewrite dict_update_fresh.
    + rewrite Hhit. split.
      * intros (i & _ & Hd). eauto.
      * intros (i & Hd). exists (Z.of_nat i). rewrite Nat2Z.id. split; [|done].
        apply elem_of_range. destruct Hd as (f & l & Hf & Hl & _).
        apply lookup_lt_Some in Hl. lia.
  - exists false. split; [done|]. split; [done|].
    intros (i & f & l & Hf & Hl & _). apply lookup_lt_Some in Hl.
    rewrite length_sorted in Hl. lia.
Qed.

#[local] Arguments brute_force_step : simpl never.

Lemma brute_force_loop_spec (threshold window : Z)
    (entries : list (string * list datetime)) (brute_force : list (string * nat)) :
  1 ≤ threshold →
  NoDup (brute_force.*1 ++ entries.*1) →
  ∃ flagged_entries,
    foldl (fun acc entry =>
             brute_force ← acc; brute_force_step threshold window brute_force entry)
          (Some brute_force) entries = Some (brute_force ++ flagged_entries) ∧
    (∀ u n, (u, n) ∈ flagged_entries ↔
            ∃ ts, (u, ts) ∈ entries ∧ n = length ts ∧ flagged threshold window ts).
Proof.
  intros Hthr. revert brute_force.
  induction entries as [|[u ts] entries IH]; intros brute_force Hnd.
  - exists []. rewrite app_nil_r. split; [done|]. intros u n. split.
    + by intros ?%not_elem_of_nil.
    + by intros (ts & ?%not_elem_of_nil & _).
  - csimpl in Hnd.
    destruct (brute_force_step_spec threshold window brute_force u ts)
      as (hit & Hstep & Hhit); [done| |].
    { apply NoDup_app in Hnd as (_ & Hdisj & _). intros Hin.
      apply (Hdisj u Hin). left. }
    simpl. rewrite Hstep.
    destruct (IH (if hit then brute_force ++ [(u, length ts)] else brute_force))
      as (rest & -> & Hrest).
    { destruct hit.
      - rewrite fmap_app. simpl. rewrite <-app_assoc. done.
      - apply NoDup_app in Hnd as (Hbf & Hdisj & Hen). apply NoDup_cons in Hen as [? ?].
        apply NoDup_app. split_and!; [done| |done].
        intros x Hx Hx'. apply (Hdisj x Hx). by right. }
    exists (if hit then (u, length ts) :: rest else rest). split.
    { destruct hit; [by rewrite <-app_assoc|done]. }
    intros u' n. destruct hit.
    + rewrite elem_of_cons, Hrest. split.
      * intros [[= -> ->]|(ts' & Hin & -> & Hf)].
        -- exists ts. split_and!; [left|done|by apply Hhit].
        -- exists ts'. split_and!; [by right|done..].
      * intros (ts' & [[= -> ->]|Hin]%elem_of_cons & -> & Hf); [by left|].
        right. eauto.
    + rewrite Hrest. split.
      * intros (ts' & Hin & -> & Hf). exists ts'. split_and!; [by right|done..].
      * intros (ts' & [[= -> ->]|Hin]%elem_of_cons & -> & Hf); [|eauto].
        apply Hhit in Hf. done.
Qed.

Lemma detect_brute_force_spec (threshold window : Z) (logs : list log) :
  1 ≤ threshold →
  ∃ brute_force,
    detect_brute_force threshold window logs = Some brute_force ∧
    ∀ u n, (u, n) ∈ brute_force ↔
           n = length (failure_times (get_login_timeline logs) u) ∧
           flagged threshold window (failure_times (get_login_timeline logs) u).
Proof.
  intros Hthr. unfold detect_brute_force.
  destruct (brute_force_loop_spec threshold window
              (failed_attempts (get_login_timeline logs)) [])
    as (r & Hr & Hspec); [done|apply failed_attempts_keys_NoDup|].
  exists r. split; [done|]. intros u n. rewrite Hspec. split.
  - intros (ts & [-> _]%elem_of_failed_attempts & -> & Hf). done.
  - intros [-> Hf]. exists (failure_times (get_login_timeline logs) u).
    split_and!; [|done..]. apply elem_of_failed_attempts. split; [done|].
    intros Hnil. rewrite Hnil in Hf. destruct Hf as (i & f & l & Hf & _).
    apply lookup_lt_Some in Hf. simpl in Hf. lia.
Qed.


Definition six_failures : list log :=
  [entry "4625" "20230101T120000Z" "WS02" "hacker@bad.com";
   entry "4625" "20230101T120100Z" "WS02" "hacker@bad.com";
   entry "4625" "20230101T120200Z" "WS02" "hacker@bad.com";
   entry "4625" "20230101T122000Z" "WS02" "hacker@bad.com";
   entry "4625" "20230101T122100Z" "WS02" "hacker@bad.com";
   entry "4625" "20230101T122200Z" "WS02" "hacker@bad.com"].

(** C4.  With failures at minutes 0, 1, 2, 20, 21 and 22,
    [detect_brute_force(3, 10)] flags the user with count 6.  For any
    threshold of at least 1, the call returns, and a user is in the result
    exactly when, in the ascending sort of the user's failure timestamps
    of the timeline, some slice of [threshold] consecutive timestamps
    spans at most the window; the count reported is the number of all
    those timestamps. *)
Theorem detect_brute_force_dense_slice (threshold window : Z) (logs : list log) :
  1 ≤ threshold →
  detect_brute_force 3 10 six_failures = Some [("hacker@bad.com", 6%nat)] ∧
  ∃ brute_force,
    detect_brute_force threshold window logs = Some brute_force ∧
    ∀ u,
      let timestamps := failure_times (get_login_timeline logs) u in
      let sorted_times := sorted leb timestamps in
      Sorted (fun a b => leb a b = true) sorted_times ∧
      sorted_times ≡ₚ timestamps ∧
      ∀ n, (u, n) ∈ brute_force ↔
           n = length timestamps ∧ ∃ i, dense_at sorted_times threshold window i.
Proof.
  intros Hthr. split; [by vm_compute|].
  destruct (detect_brute_force_spec threshold window logs Hthr) as (r & Hr & Hspec).
  exists r. split; [done|]. intros u timestamps sorted_times. split_and!.
  - apply sorted_Sorted, datetime_leb_total.
  - apply sorted_Permutation.
  - intros n. apply Hspec.
Qed.

Lemma detect_brute_force_dense_slice_witness :
  detect_brute_force 3 10 six_failures = Some [("hacker@bad.com", 6%nat)] ∧
  ∃ brute_force,
    detect_brute_force 3 10 six_failures = Some brute_force ∧
    ∀ u,
      let timestamps := failure_times (get_login_timeline six_failures) u in
      let sorted_times := sorted leb timestamps in
      Sorted (fun a b => leb a b = true) sorted_times ∧
      sorted_times ≡ₚ timestamps ∧
      ∀ n, (u, n) ∈ brute_force ↔
           n = length timestamps ∧ ∃ i, dense_at sorted_times 3 10 i.
Proof. apply (detect_brute_force_dense_slice 3 10 six_failures). lia. Defined.

Lemma step_failures_le (l : log) (u : string) :
  (length (filter (fun e => user e = u)
            (filter (fun e => outcome e = Failure) (timeline_step [] l)))
   ≤ length (filter (fun l' => user_of l' = u) (failed_logins [l])))%nat.
Proof.
  unfold timeline_step, failed_logins, is_failed_login, is_login.
  destruct (bool_decide (l !! "EventID" = Some "4624")) eqn:H24; simpl.
  - repeat case_match; simpl; lia.
  - destruct (bool_decide (l !! "EventID" = Some "4625")) eqn:H25; simpl; [|lia].
    rewrite (filter_cons (fun l => Is_true _)), H25. simpl.
    repeat case_match; simpl; try lia.
    rewrite (filter_cons (fun e => outcome e = Failure)). simpl.
    rewrite !filter_cons. simpl. repeat case_decide; simpl; try lia; done.
Qed.

Lemma failure_times_le (logs : list log) (u : string) :
  (length (failure_times (get_login_timeline logs) u) ≤ failures_of logs u)%nat.
Proof.
  unfold failure_times, failures_of. rewrite length_fmap.
  induction logs as [|l logs IH]; [done|].
  rewrite get_login_timeline_cons, !filter_app, length_app.
  change (l :: logs) with ([l] ++ logs).
  unfold failed_logins in *. rewrite !filter_app, length_app.
  pose proof (step_failures_le l u) as Hstep. unfold failed_logins in Hstep. lia.
Qed.

(** C5.  A user with fewer than [threshold] failed-login records is not in
    the result of [detect_brute_force], whatever the timestamps are. *)
Theorem detect_brute_force_below_threshold (threshold window : Z) (logs : list log)
    (u : string) :
  Z.of_nat (failures_of logs u) < threshold →
  ∃ brute_force,
    detect_brute_force threshold window logs = Some brute_force ∧
    ∀ n, (u, n) ∉ brute_force.
Proof.
  intros Hfew.
  destruct (detect_brute_force_spec threshold window logs) as (r & Hr & Hspec); [lia|].
  exists r. split; [done|]. intros n [_ (i & f & l & _ & Hl & _)]%Hspec.
  apply lookup_lt_Some in Hl. rewrite length_sorted in Hl.
  pose proof (failure_times_le logs u). lia.
Qed.

Definition four_failures : list log :=
  [entry "4625" "20230101T120000Z" "WS02" "hacker@bad.com";
   entry "4625" "20230101T120001Z" "WS02" "hacker@bad.com";
   entry "4625" "20230101T120002Z" "WS02" "hacker@bad.com";
   entry "4625" "20230101T120003Z" "WS02" "hacker@bad.com"].

Lemma detect_brute_force_below_threshold_witness :
  ∃ brute_force,
    detect_brute_force 5 5 four_failures = Some brute_force ∧
    ∀ n, ("hacker@bad.com", n) ∉ brute_force.
Proof.
  apply (detect_brute_force_below_threshold 5 5 four_failures "hacker@bad.com").
  vm_compute. reflexivity.
Defined.


(** *** Totality and empty results *)

Lemma no_failed_logins_no_failures (logs : list log) :
  failed_logins logs = [] →
  filter (fun e => outcome e = Failure) (get_login_timeline logs) = [].
Proof.
  intros Hnone. apply filter_none. intros e (l & Hl & He)%elem_of_get_login_timeline Hout.
  apply timeline_step_event in He as (Hlogin & _ & _ & _ & Ho & _).
  assert (l ∈ failed_logins logs) as Hin; [|by rewrite Hnone in Hin; apply not_elem_of_nil in Hin].
  apply list_elem_of_filter. split; [|done].
  unfold is_login, is_failed_login in *.
  destruct (bool_decide (l !! "EventID" = Some "4624")); [congruence|].
  simpl in Hlogin. by rewrite Hlogin.
Qed.

Lemma no_logins_empty_timeline (logs : list log) :
  Forall (fun l => is_login l = false) logs → get_login_timeline logs = [].
Proof.
  induction 1 as [|l logs Hl _ IH]; [done|].
  by rewrite get_login_timeline_cons, timeline_step_not_login, IH.
Qed.

Definition logout_only : list log :=
  [entry "4634" "20230101T120200Z" "WS01" "john.doe@domain.com"].

(** C9.  The detection operations of the in-memory analyser return a
    value on every record set ([detect_brute_force], the only one with a
    raising path, for every threshold of at least 1), and return an empty
    collection when nothing matches: no failed-login record for
    [count_failed_logins] and [detect_brute_force]; no login record for
    [get_login_timeline]; no timeline event in hours 0 to 4 and no user
    with more than two computers for [detect_unusual_activity]; no user
    matching a keyword for [detect_suspicious_users]; the empty record set
    for [get_event_statistics], whose three tables are then empty. *)
Theorem detection_total_and_empty (threshold window : Z) (logs : list log) :
  (1 ≤ threshold → is_Some (detect_brute_force threshold window logs)) ∧
  (failed_logins logs = [] →
     count_failed_logins logs = [] ∧
     detect_brute_force threshold window logs = Some []) ∧
  (Forall (fun l => is_login l = false) logs →
     get_login_timeline logs = [] ∧ detect_unusual_activity logs = []) ∧
  ((∀ h, h ∈ [0; 1; 2; 3; 4] → ¬ event_at_hour (get_login_timeline logs) h) →
   Forall (fun uc => (size uc.2 ≤ 2)%nat) (user_computers (get_login_timeline logs)) →
     detect_unusual_activity logs = []) ∧
  (Forall (fun l => matches_pattern (lower (default "" (l !! "User"))) = false) logs →
     detect_suspicious_users logs = []) ∧
  get_event_statistics [] = mk_statistics [] [] [].
Proof.
  split_and!.
  - intros Hthr.
    destruct (detect_brute_force_spec threshold window logs Hthr) as (r & -> & _). eauto.
  - intros Hnone. split.
    + unfold count_failed_logins. by rewrite counter_fold, Hnone.
    + unfold detect_brute_force. rewrite failed_attempts_spec.
      by rewrite no_failed_logins_no_failures.
  - intros Hnone. split; [by apply no_logins_empty_timeline|].
    unfold detect_unusual_activity. by rewrite no_logins_empty_timeline.
  - intros Hhours Hcomputers. rewrite detect_unusual_activity_spec.
    rewrite unusual_hours_spec. simpl.
    rewrite (filter_none (event_at_hour _)) by done.
    rewrite decide_True by done. simpl.
    rewrite filter_none; [done|]. intros uc Huc.
    rewrite Forall_forall in Hcomputers. specialize (Hcomputers uc Huc). lia.
  - intros Hnone. unfold detect_suspicious_users.
    destruct (elements (suspicious_set logs)) as [|x xs] eqn:He; [done|].
    assert (x ∈ suspicious_set logs) as Hx by (apply elem_of_elements; rewrite He; left).
    apply elem_of_suspicious_set in Hx as (l & Hl & <- & Hm).
    rewrite Forall_forall in Hnone. rewrite (Hnone l Hl) in Hm. done.
  - done.
Qed.

Lemma detection_total_and_empty_witness :
  is_Some (detect_brute_force 3 10 logout_only) ∧
  count_failed_logins logout_only = [] ∧
  detect_brute_force 3 10 logout_only = Some [] ∧
  get_login_timeline logout_only = [] ∧
  detect_unusual_activity logout_only = [] ∧
  detect_suspicious_users logout_only = [] ∧
  get_event_statistics [] = mk_statistics [] [] [].
Proof.
  destruct (detection_total_and_empty 3 10 logout_only)
    as (Htotal & Hfailed & Hlogin & _ & Hsuspicious & Hstatistics).
  split_and!.
  - apply Htotal. lia.
  - apply Hfailed. reflexivity.
  - apply Hfailed. reflexivity.
  - apply Hlogin. repeat constructor.
  - apply Hlogin. repeat constructor.
  - apply Hsuspicious. repeat constructor.
  - exact Hstatistics.
Defined.

End AppFacts.

(** ** The field-anchored parser, the store and the store-backed analyser *)

Module LogsFacts.
Import Py PyFacts Datetime DatetimeFacts Logs.

Definition canonical_line : string :=
  "EventID=4624 TimeCreated=20230101T120000Z Computer=WS01 User=a@b.com".

(** *** Lines written by the sample generator *)

Lemma plus_token (p : ascii → bool) (e : string) (c : ascii) (s : string) :
  token p e → p c = false → plus p (e +:+ String c s) = Some (e, String c s).
Proof.
  intros [Hne Hall] Hc. unfold plus. rewrite span_token by done.
  by rewrite string_eqb_nil.
Qed.

Lemma plus_token_end (p : ascii → bool) (e : string) :
  token p e → plus p e = Some (e, "").
Proof.
  intros [Hne Hall]. unfold plus. rewrite span_token_end by done.
  by rewrite string_eqb_nil.
Qed.

Lemma plus_space (c : ascii) (s : string) :
  is_space c = false → plus is_space (String " " (String c s)) = Some (" ", String c s).
Proof. intros Hc. unfold plus. simpl. by rewrite Hc. Qed.

(** The text of a line with the four fields, followed by [rest]. *)
Definition fields_line (event_id time_created computer user rest : string) : string :=
  "EventID=" +:+ event_id +:+ String " " ("TimeCreated=" +:+ time_created +:+
  String " " ("Computer=" +:+ computer +:+ String " " ("User=" +:+ user +:+ rest))).

Lemma windows_event_pattern_fields (event_id time_created computer user rest : string) :
  token is_digit event_id → token not_space time_created →
  token not_space computer → token not_space user →
  rest = "" ∨ (∃ rest', rest = String " " rest') →
  windows_event_pattern (fields_line event_id time_created computer user rest)
  = Some (event_id, time_created, computer, user).
Proof.
  intros He Ht Hc Hu Hrest. unfold windows_event_pattern, fields_line.
  rewrite literal_app. cbn [mbind option_bind].
  rewrite (plus_token is_digit event_id) by done. cbn [mbind option_bind].
  rewrite (append_cons "T"), plus_space by done. cbn [mbind option_bind].
  rewrite <-(append_cons "T"), literal_app. cbn [mbind option_bind].
  rewrite (plus_token not_space time_created) by done. cbn [mbind option_bind].
  rewrite (append_cons "C"), plus_space by done. cbn [mbind option_bind].
  rewrite <-(append_cons "C"), literal_app. cbn [mbind option_bind].
  rewrite (plus_token not_space computer) by done. cbn [mbind option_bind].
  rewrite (append_cons "U"), plus_space by done. cbn [mbind option_bind].
  rewrite <-(append_cons "U"), literal_app. cbn [mbind option_bind].
  destruct Hrest as [->|(rest' & ->)].
  - rewrite append_nil_r, plus_token_end by done. done.
  - rewrite (plus_token not_space user) by done. done.
Qed.

Lemma generate_realistic_log_fields (dt : datetime)
    (event_type computer user choice : string) :
  token not_space user →
  ∃ rest, (rest = "" ∨ ∃ rest', rest = String " " rest') ∧
    App.generate_realistic_log dt event_type computer user choice =
    fields_line event_type (strftime dt) computer user rest.
Proof.
  intros Hu. unfold App.generate_realistic_log, fields_line.
  generalize (App.additional_fields event_type choice). intros additional.
  exists (rstrip (String " " additional)). split.
  { simpl. destruct (String.eqb (rstrip additional) ""); simpl; eauto. }
  unfold strip. rewrite (append_cons "E"). cbn [lstrip]. simpl (is_space "E").
  cbv iota. rewrite <-(append_cons "E").
  assert (rstrip (user +:+ String " " additional)
          = user +:+ rstrip (String " " additional)) as Huser by (by apply rstrip_token).
  assert (∀ a s r, rstrip s = r → r ≠ "" → rstrip (a +:+ s) = a +:+ r ∧ a +:+ r ≠ "")
    as Hstep.
  { intros a s r <- Hr. split; [by apply rstrip_app|by apply append_not_nil_r]. }
  pose proof (append_not_nil_l user (rstrip (String " " additional)) (proj1 Hu)) as Hne.
  destruct (Hstep " User=" _ _ Huser Hne) as [H1 H1'].
  destruct (Hstep computer _ _ H1 H1') as [H2 H2'].
  destruct (Hstep " Computer=" _ _ H2 H2') as [H3 H3'].
  destruct (Hstep (strftime dt) _ _ H3 H3') as [H4 H4'].
  destruct (Hstep " TimeCreated=" _ _ H4 H4') as [H5 H5'].
  destruct (Hstep event_type _ _ H5 H5') as [H6 H6'].
  destruct (Hstep "EventID=" _ _ H6 H6') as [H7 _].
  exact H7.
Qed.

Definition generated_line : string :=
  "EventID=4624 TimeCreated=20230101T120000Z Computer=WS01 User=a@b.com LogonType=2 AuthPackage=Kerberos".

(** C8.  Parsing the canonical line gives back its fields: the
    field-anchored parser returns event id 4624, the datetime
    2023-01-01T12:00:00, computer [WS01] and user [a@b.com]; the token
    parser returns the four fields as written, and the timeline built from
    the parsed entry carries the same datetime, computer and user.  More
    generally the field-anchored parser gives back the event id, the
    datetime, the computer and the user of every line the sample generator
    writes for a numeric event type, a datetime with a four-digit year,
    and a computer and a user that are not empty and hold no whitespace. *)
Theorem parse_line_round_trip (dt : datetime) (event_type computer user choice : string) :
  printable dt → token is_digit event_type →
  token not_space computer → token not_space user →
  parse_line (App.generate_realistic_log dt event_type computer user choice) =
    Some (mk_log_data (digits_val 0 event_type) (Parsed dt) computer user) ∧
  parse_line canonical_line =
    Some (mk_log_data 4624 (Parsed (mk_datetime 2023 1 1 12 0 0 0)) "WS01" "a@b.com") ∧
  ∃ parsed,
    App.parse_line canonical_line = Some parsed ∧
    App.process_lines [canonical_line] [] = [parsed] ∧
    parsed !! "EventID" = Some "4624" ∧
    parsed !! "TimeCreated" = Some "20230101T120000Z" ∧
    parsed !! "Computer" = Some "WS01" ∧
    parsed !! "User" = Some "a@b.com" ∧
    strptime "20230101T120000Z" = Some (mk_datetime 2023 1 1 12 0 0 0) ∧
    App.get_login_timeline [parsed] =
      [App.mk_event (mk_datetime 2023 1 1 12 0 0 0) App.Success "a@b.com" "WS01"].
Proof.
  intros Hdt He Hc Hu. split_and!.
  - destruct (generate_realistic_log_fields dt event_type computer user choice Hu)
      as (rest & Hrest & ->).
    unfold parse_line.
    rewrite windows_event_pattern_fields by (done || by apply strftime_token).
    unfold _parse_windows_timestamp. by rewrite strptime_strftime.
  - by vm_compute.
  - exists (AppFacts.entry "4624" "20230101T120000Z" "WS01" "a@b.com").
    split_and!; first [by_evaluation | by vm_compute].
Qed.

Lemma parse_line_round_trip_witness :
  App.generate_realistic_log (mk_datetime 2023 1 1 12 0 0 0) "4624" "WS01" "a@b.com" "2"
    = generated_line ∧
  parse_line generated_line =
    Some (mk_log_data 4624 (Parsed (mk_datetime 2023 1 1 12 0 0 0)) "WS01" "a@b.com").
Proof.
  split; [reflexivity|].
  apply (parse_line_round_trip (mk_datetime 2023 1 1 12 0 0 0)
           "4624" "WS01" "a@b.com" "2").
  - split_and!; [reflexivity|simpl; lia|reflexivity].
  - split; [discriminate|reflexivity].
  - split; [discriminate|reflexivity].
  - split; [discriminate|reflexivity].
Defined.


(** *** Unparsable timestamps *)





(** *** The store-backed [detect_brute_force] *)

Section StoreBackedFacts.
Variable fromisoformat : string → option datetime.

Lemma attempts_loop_bound (td : Z) (now : datetime)
    (rows : list (option string * column))
    (attempts : list (option string * list datetime)) :
  ∃ r, attempts_loop fromisoformat (Some td) now rows attempts = Ok r.
Proof.
  revert attempts. induction rows as [|[user ts] rows IH]; intros attempts; simpl.
  - eauto.
  - destruct (row_timestamp fromisoformat ts); apply IH.
Qed.

Lemma attempts_loop_unbound_skip (now : datetime)
    (rows : list (option string * column))
    (attempts : list (option string * list datetime)) :
  Forall (fun row => row_timestamp fromisoformat row.2 = None) rows →
  attempts_loop fromisoformat None now rows attempts = Ok attempts.
Proof.
  induction 1 as [|[user ts] rows Hrow _ IH]; simpl; [done|].
  simpl in Hrow. by rewrite Hrow.
Qed.

Lemma attempts_loop_unbound_raise (now : datetime)
    (rows : list (option string * column))
    (attempts : list (option string * list datetime)) :
  Exists (fun row => is_Some (row_timestamp fromisoformat row.2)) rows →
  attempts_loop fromisoformat None now rows attempts = Raise UnboundLocalError.
Proof.
  induction 1 as [[user ts] rows [t Hrow]|[user ts] rows _ IH]; simpl.
  - simpl in Hrow. by rewrite Hrow.
  - by destruct (row_timestamp fromisoformat ts).
Qed.
End StoreBackedFacts.

Definition midnight : datetime := mk_datetime 2023 1 1 0 0 0 0.

(** C10, as stated, fails: called with a window that does not end in
    ['m'] on a store with no failed login, the operation returns the empty
    dict. *)
Lemma detect_brute_force_unbound_no_rows :
  endswith "m" "5" = false ∧
  detect_brute_force (fun _ => None) "5" 5 [] midnight = Ok [].
Proof. by vm_compute. Qed.

(** C10, amended.  When [window] does not end in ['m'], [window_td] is
    never bound: the operation raises UnboundLocalError as soon as a row
    has a usable timestamp, and returns the empty dict when no row has
    one (in particular on no rows).  When [window] ends in ['m'], the
    operation raises ValueError if the text before the ['m'] is not an
    integer, OverflowError if the minutes exceed what a timedelta holds,
    and returns a result otherwise. *)
Theorem detect_brute_force_window_binding (fromisoformat : string → option datetime)
    (window : string) (threshold : Z) (rows : list (option string * column))
    (now : datetime) :
  (endswith "m" window = false →
     (Forall (fun row => row_timestamp fromisoformat row.2 = None) rows →
        detect_brute_force fromisoformat window threshold rows now = Ok []) ∧
     (Exists (fun row => is_Some (row_timestamp fromisoformat row.2)) rows →
        detect_brute_force fromisoformat window threshold rows now
          = Raise UnboundLocalError)) ∧
  (endswith "m" window = true →
     match int (drop_last window) with
     | None =>
         detect_brute_force fromisoformat window threshold rows now = Raise ValueError
     | Some minutes =>
         match timedelta_minutes minutes with
         | None =>
             detect_brute_force fromisoformat window threshold rows now
               = Raise OverflowError
         | Some _ =>
             ∃ r, detect_brute_force fromisoformat window threshold rows now = Ok r
         end
     end).
Proof.
  unfold detect_brute_force, window_td. split.
  - intros ->. split.
    + intros Hrows. by rewrite attempts_loop_unbound_skip.
    + intros Hrows. by rewrite attempts_loop_unbound_raise.
  - intros ->. destruct (int (drop_last window)) as [minutes|]; [|done].
    destruct (timedelta_minutes minutes) as [td|]; [|done].
    destruct (attempts_loop_bound fromisoformat td now rows []) as (r & ->). eauto.
Qed.

Definition one_failure : list (option string * column) :=
  [(Some "hacker@bad.com", Timestamp (mk_datetime 2022 12 31 23 58 0 0))].

Lemma detect_brute_force_window_binding_witness :
  detect_brute_force (fun _ => None) "5" 1 [] midnight = Ok [] ∧
  detect_brute_force (fun _ => None) "5" 1 one_failure midnight = Raise UnboundLocalError ∧
  ∃ r, detect_brute_force (fun _ => None) "5m" 1 one_failure midnight = Ok r.
Proof.
  split_and!.
  - apply (proj1 (detect_brute_force_window_binding (fun _ => None) "5" 1 [] midnight)).
    + reflexivity.
    + constructor.
  - apply (proj1 (detect_brute_force_window_binding (fun _ => None) "5" 1 one_failure midnight)).
    + reflexivity.
    + left. simpl. eauto.
  - apply (proj2 (detect_brute_force_window_binding (fun _ => None) "5m" 1 one_failure midnight)).
    reflexivity.
Defined.

End LogsFacts.
